(** * tiled.server.authentication

    A shallow embedding of [src/tiled/server/authentication.py]: token
    decoding under key rotation, per-request resolution of the current
    principal, and the session life cycle (create, slide, revoke) on top of
    the SQLAlchemy unit of work. *)

From Stdlib Require Import ZArith Lia Ascii String.
From stdpp Require Import base strings list gmap.

Local Open Scope Z_scope.
Local Open Scope string_scope.

(** ** Python values *)

(** Exceptions the module raises or lets escape.  [HTTPException] carries the
    response payload: status code, detail and optional headers. *)
Inductive Exn : Type :=
| HTTPException (status_code : Z) (detail : string)
                (headers : option (list (string * string)))
| ExpiredSignatureError
| AttributeError (msg : string)
| KeyError (key : string)
| IndexError
| TypeError (msg : string)
| ValueError
| ValidationError
| InvalidRequestError.

(** A call either returns a value or raises. *)
Inductive Result (A : Type) : Type :=
| Return (a : A)
| Raise (e : Exn).
Arguments Return {A} a.
Arguments Raise {A} e.

Definition is_raise {A} (r : Result A) : bool :=
  match r with Raise _ => true | Return _ => false end.

(** Module constants (lines 27-34). *)
Definition ACCESS_TOKEN_COOKIE_NAME : string := "tiled_access_token".
Definition REFRESH_TOKEN_COOKIE_NAME : string := "tiled_refresh_token".
Definition API_KEY_COOKIE_NAME : string := "tiled_api_key".
Definition API_KEY_HEADER_NAME : string := "x-tiled-api-key".
Definition API_KEY_QUERY_PARAMETER : string := "api_key".
Definition CSRF_COOKIE_NAME : string := "tiled_csrf".

(** A uuid is its 128-bit integer. *)
Definition UUID : Type := N.
Bind Scope N_scope with UUID.

(** The claim dictionary of a token.  A key that is absent from the
    dictionary is [None]; [ids] lists the [(id, idp)] entries. *)
Record Claims : Type := mkClaims {
  c_type : option string;
  c_exp : option Z;
  c_sid : option string;
  c_sub : option string;
  c_sub_typ : option string;
  c_ids : option (list (string * string))
}.

Definition empty_claims : Claims := mkClaims None None None None None None.

(** What [jwt.decode] does with one key: the payload, or
    [ExpiredSignatureError] (the signature verified, [exp] is past), or any
    other [JWTError]. *)
Inductive JwtOutcome : Type :=
| JwtPayload (payload : Claims)
| JwtExpiredSignatureError
| JwtJWTError.

(** An incoming request: query parameters, headers (names in lower case),
    cookies, and the URL the service is mounted at. *)
Record Request : Type := mkRequest {
  query_params : gmap string string;
  headers : gmap string string;
  cookies : gmap string string;
  base_url : string
}.

(** [request.state]: the cookies scheduled for the response and the endpoint
    label. *)
Record RequestState : Type := mkRequestState {
  cookies_to_set : list (string * string);
  endpoint : option string
}.

(** Functions the module imports: python-jose's [jwt.encode] and
    [jwt.decode] (which reads the UTC clock, passed here as the first
    argument), the hex form of [uuid.UUID], FastAPI's security schemes
    declared at lines 58-61 (each yields the credential or [None], since
    [auto_error=False]), and [get_base_url] of [tiled.server.utils]. *)
Class Externals : Type := {
  jwt_encode : Claims → string → string;
  jwt_decode : Z → string → string → JwtOutcome;
  uuid_hex : UUID → string;
  uuid_of_hex : string → option UUID;
  oauth2_scheme : Request → option string;
  api_key_query : Request → option string;
  api_key_header : Request → option string;
  api_key_cookie : Request → option string;
  get_base_url : Request → string
}.

(** One reading of the two clocks the module uses: [datetime.now()] and
    [datetime.utcnow()], in microseconds.  The readings taken during one call
    are identified. *)
Record Clock : Type := mkClock { now : Z; utcnow : Z }.

(** ** Settings *)

(** The fields of [settings] the module reads ([tiled.server.settings] is
    not in src).  Ages are in the unit of the clock. *)
Record Settings : Type := mkSettings {
  secret_keys : list string;
  single_user_api_key : string;
  allow_anonymous_access : bool;
  access_token_max_age : Z;
  refresh_token_max_age : Z;
  session_max_age : Z
}.

(** ** Token codec (lines 64-104) *)

Section TokenCodec.
Context `{Externals}.

Definition create_access_token (clk : Clock) (data : Claims)
    (secret_key : string) (expires_delta : Z) : string :=
  let expire := utcnow clk + expires_delta in
  let to_encode :=
    mkClaims (Some "access") (Some expire)
             (c_sid data) (c_sub data) (c_sub_typ data) (c_ids data) in
  jwt_encode to_encode secret_key.

Definition create_refresh_token (clk : Clock) (session_id : string)
    (secret_key : string) (expires_delta : Z) : string :=
  let expire := utcnow clk + expires_delta in
  let to_encode :=
    mkClaims (Some "refresh") (Some expire) (Some session_id)
             None None None in
  jwt_encode to_encode secret_key.

Definition credentials_exception : Exn :=
  HTTPException 401 "Could not validate credentials"
                (Some [("WWW-Authenticate", "Bearer")]).

(** The [for ... else] loop over the keys: [break] on the first payload,
    re-raise [ExpiredSignatureError], [continue] on any other [JWTError],
    and raise [credentials_exception] when the list is exhausted. *)
Fixpoint decode_token (utc : Z) (token : string) (keys : list string)
    : Result Claims :=
  match keys with
  | [] => Raise credentials_exception
  | secret_key :: rest =>
      match jwt_decode utc token secret_key with
      | JwtPayload payload => Return payload
      | JwtExpiredSignatureError => Raise ExpiredSignatureError
      | JwtJWTError => decode_token utc token rest
      end
  end.
End TokenCodec.

(** ** Principals *)

(** Modelled from the spec: [SpecialUsers] of [tiled.utils] is not in src.
    The spec's built-in Admin and Public principals are sentinels; the module
    names them [SpecialUsers.admin] and [SpecialUsers.public].  They are
    members of an enumeration: values other than [None], with no [uuid]
    attribute. *)
Inductive SpecialUsers : Type := public | admin.

Inductive PrincipalType : Type := user | service.

Definition PrincipalType_value (t : PrincipalType) : string :=
  match t with user => "user" | service => "service" end.

Definition PrincipalType_of_value (s : string) : option PrincipalType :=
  if bool_decide (s = "user") then Some user
  else if bool_decide (s = "service") then Some service
  else None.

(** Modelled from the spec: the pydantic models [Identity] and [Principal]
    of [tiled.server.models] are not in src.  They carry the fields the
    module reads and the spec's data model lists. *)
Record Identity : Type := mkIdentity { id : string; provider : string }.

Record Principal : Type := mkPrincipal {
  uuid : UUID;
  type : PrincipalType;
  identities : list Identity
}.

(** What [get_current_principal] hands to the routes: a sentinel or a
    [Principal] model. *)
Inductive Subject : Type :=
| Special (u : SpecialUsers)
| Model (p : Principal).

(** ** Request resolution (lines 107-175) *)

(** A [str] is a [string] whose characters are the code points below 256;
    the ASCII ones are those below 128. *)
Definition is_ascii (s : string) : bool :=
  forallb (λ c, (Ascii.N_of_ascii c <? 128)%N) (String.list_ascii_of_string s).

(** [secrets.compare_digest] on two [str]: equality, and a [TypeError] when
    either holds a non-ASCII character. *)
Definition compare_digest (a b : string) : Result bool :=
  if is_ascii a && is_ascii b then Return (bool_decide (a = b))
  else Raise (TypeError
         "comparing strings with non-ASCII characters is not supported").

Definition invalid_api_key : Exn := HTTPException 401 "Invalid API key" None.

(** The loop of [check_single_user_api_key] over the carriers in the order
    given: the first one that is not [None] decides. *)
Fixpoint check_api_keys (candidates : list (option string))
    (settings : Settings) : Result bool :=
  match candidates with
  | [] => Return false
  | None :: rest => check_api_keys rest settings
  | Some api_key :: _ =>
      match compare_digest api_key (single_user_api_key settings) with
      | Return true => Return true
      | Return false => Raise invalid_api_key
      | Raise e => Raise e
      end
  end.

Definition check_single_user_api_key
    (api_key_query api_key_header api_key_cookie : option string)
    (settings : Settings) : Result bool :=
  check_api_keys [api_key_query; api_key_header; api_key_cookie] settings.

Definition not_authenticated (root : string) : Exn :=
  HTTPException 401 "Not authenticated" (Some [("X-Tiled-Root", root)]).

Definition access_token_expired : Exn :=
  HTTPException 401 "Access token has expired. Refresh token." None.

(** [payload[key]] *)
Definition getitem {A} (key : string) (v : option A) : Result A :=
  match v with Some a => Return a | None => Raise (KeyError key) end.

#[global] Instance Result_ret : MRet Result := λ A a, Return a.
#[global] Instance Result_bind : MBind Result := λ A B k r,
  match r with Return a => k a | Raise e => Raise e end.

Section Resolution.
Context `{Externals}.

Definition UUID_from_hex (hex : string) : Result UUID :=
  match uuid_of_hex hex with Some u => Return u | None => Raise ValueError end.

(** The [Principal(...)] built from an access token's payload
    (lines 168-175). *)
Definition principal_of_payload (payload : Claims) : Result Principal :=
  sub ← getitem "sub" (c_sub payload) ;
  u ← UUID_from_hex sub ;
  sub_typ ← getitem "sub_typ" (c_sub_typ payload) ;
  ids ← getitem "ids" (c_ids payload) ;
  match PrincipalType_of_value sub_typ with
  | None => Raise ValidationError
  | Some ty =>
      Return (mkPrincipal u ty (map (λ i, mkIdentity (fst i) (snd i)) ids))
  end.

(** [request.cookies.get(ACCESS_TOKEN_COOKIE_NAME, access_token)]: the
    cookie, and the bearer token only when there is no cookie. *)
Definition access_token_from_either_location (request : Request)
    (access_token : option string) : option string :=
  match cookies request !! ACCESS_TOKEN_COOKIE_NAME with
  | Some t => Some t
  | None => access_token
  end.

Definition get_current_principal (clk : Clock) (request : Request)
    (state : RequestState) (access_token : option string)
    (has_single_user_api_key : bool) (settings : Settings)
    (authenticators : list string) : Result Subject * RequestState :=
  if bool_decide (authenticators = []) && has_single_user_api_key then
    let state' :=
      if bool_decide (cookies request !! API_KEY_COOKIE_NAME
                      = Some (single_user_api_key settings))
      then state
      else mkRequestState
             (cookies_to_set state
                ++ [(API_KEY_COOKIE_NAME, single_user_api_key settings)])
             (endpoint state) in
    (Return (Special admin), state')
  else
    match access_token_from_either_location request access_token with
    | None =>
        if allow_anonymous_access settings
        then (Return (Special public), state)
        else (Raise (not_authenticated (get_base_url request)), state)
    | Some token =>
        match decode_token (utcnow clk) token (secret_keys settings) with
        | Raise ExpiredSignatureError => (Raise access_token_expired, state)
        | Raise e => (Raise e, state)
        | Return payload =>
            match principal_of_payload payload with
            | Return p => (Return (Model p), state)
            | Raise e => (Raise e, state)
            end
        end
    end.

(** FastAPI's [Depends] wiring: the sub-dependencies are resolved first,
    and an exception in [check_single_user_api_key] ends the request before
    [get_current_principal] runs. *)
Definition current_principal (clk : Clock) (request : Request)
    (state : RequestState) (settings : Settings)
    (authenticators : list string) : Result Subject * RequestState :=
  match check_single_user_api_key (api_key_query request)
          (api_key_header request) (api_key_cookie request) settings with
  | Raise e => (Raise e, state)
  | Return has_single_user_api_key =>
      get_current_principal clk request state (oauth2_scheme request)
        has_single_user_api_key settings authenticators
  end.
End Resolution.

(** ** The store ([tiled.database.orm] over SQLAlchemy) *)

(** Modelled from the spec: the ORM classes of [tiled.database.orm] are not
    in src.  The rows carry the fields of the spec's data model (section 3),
    an integer primary key [id] each, and the defaults the spec gives a new
    Session: [revoked=false], [refresh_count=0]. *)
Module orm.
Module Principal.
Record t : Type := mk { id : nat; uuid : UUID; type : PrincipalType }.
End Principal.
Module Identity.
Record t : Type := mk { id : string; provider : string; principal_id : nat }.
End Identity.
Module Session.
Record t : Type := mk {
  id : nat;
  uuid : UUID;
  principal_id : nat;
  expiration_time : Z;
  revoked : bool;
  refresh_count : Z;
  time_last_refreshed : option Z
}.
End Session.
End orm.

(** The durable state: the three tables in insertion order, the next value
    of each primary-key sequence, and the source of [uuid4()] draws, which
    yields a value once and never again. *)
Record Store : Type := mkStore {
  table_principals : list orm.Principal.t;
  table_identities : list orm.Identity.t;
  table_sessions : list orm.Session.t;
  principal_seq : nat;
  session_seq : nat;
  uuid4_source : N
}.

(** An attribute assignment on a persistent [orm.Session] object.
    [set_refresh_count_plus z] is the SQL expression
    [orm.Session.refresh_count + z]: the store evaluates it on the row it
    holds when the UPDATE runs. *)
Inductive Assignment : Type :=
| set_revoked (b : bool)
| set_time_last_refreshed (t : Z)
| set_refresh_count_plus (z : Z).

(** What the unit of work holds until the next commit. *)
Inductive Change : Type :=
| Insert_Principal (type : PrincipalType)
| Insert_Identity (provider id : string) (principal_id : nat)
| Insert_Session (principal_id : nat) (expiration_time : Z)
| Update_Session (pk : nat) (a : Assignment).

(** A database session ([db]) together with [request.state]: the committed
    store, the pending changes, and the rows this unit of work inserted last
    (what [db.refresh] reads back). *)
Record World : Type := mkWorld {
  store : Store;
  pending : list Change;
  new_principal : option orm.Principal.t;
  new_session : option orm.Session.t;
  request_state : RequestState
}.

Definition assign (a : Assignment) (s : orm.Session.t) : orm.Session.t :=
  match a with
  | set_revoked b =>
      orm.Session.mk (orm.Session.id s) (orm.Session.uuid s)
        (orm.Session.principal_id s) (orm.Session.expiration_time s) b
        (orm.Session.refresh_count s) (orm.Session.time_last_refreshed s)
  | set_time_last_refreshed t =>
      orm.Session.mk (orm.Session.id s) (orm.Session.uuid s)
        (orm.Session.principal_id s) (orm.Session.expiration_time s)
        (orm.Session.revoked s) (orm.Session.refresh_count s) (Some t)
  | set_refresh_count_plus z =>
      orm.Session.mk (orm.Session.id s) (orm.Session.uuid s)
        (orm.Session.principal_id s) (orm.Session.expiration_time s)
        (orm.Session.revoked s) (orm.Session.refresh_count s + z)
        (orm.Session.time_last_refreshed s)
  end.

Definition update_session (pk : nat) (a : Assignment)
    (rows : list orm.Session.t) : list orm.Session.t :=
  map (λ s, if bool_decide (orm.Session.id s = pk) then assign a s else s) rows.

(** One statement of a flush, applied to the store. *)
Definition flush_change (w : World) (ch : Change) : World :=
  let s := store w in
  match ch with
  | Insert_Principal ty =>
      let row := orm.Principal.mk (principal_seq s) (uuid4_source s) ty in
      mkWorld
        (mkStore (table_principals s ++ [row]) (table_identities s)
           (table_sessions s) (S (principal_seq s)) (session_seq s)
           (N.succ (uuid4_source s)))
        (pending w) (Some row) (new_session w) (request_state w)
  | Insert_Identity prov i pk =>
      let row := orm.Identity.mk i prov pk in
      mkWorld
        (mkStore (table_principals s) (table_identities s ++ [row])
           (table_sessions s) (principal_seq s) (session_seq s)
           (uuid4_source s))
        (pending w) (new_principal w) (new_session w) (request_state w)
  | Insert_Session pk exp =>
      let row :=
        orm.Session.mk (session_seq s) (uuid4_source s) pk exp false 0 None in
      mkWorld
        (mkStore (table_principals s) (table_identities s)
           (table_sessions s ++ [row]) (principal_seq s) (S (session_seq s))
           (N.succ (uuid4_source s)))
        (pending w) (new_principal w) (Some row) (request_state w)
  | Update_Session pk a =>
      mkWorld
        (mkStore (table_principals s) (table_identities s)
           (update_session pk a (table_sessions s)) (principal_seq s)
           (session_seq s) (uuid4_source s))
        (pending w) (new_principal w) (new_session w) (request_state w)
  end.

(** [db.commit()]: flush the pending changes in order, then forget them. *)
Definition commit_world (w : World) : World :=
  foldl flush_change
    (mkWorld (store w) [] (new_principal w) (new_session w) (request_state w))
    (pending w).

Definition add_pending (ch : Change) (w : World) : World :=
  mkWorld (store w) (pending w ++ [ch]) (new_principal w) (new_session w)
    (request_state w).

(** A fresh database session on a store, as [get_db] opens one per
    request. *)
Definition connect (s : Store) (st : RequestState) : World :=
  mkWorld s [] None None st.

Definition empty_store : Store := mkStore [] [] [] 1 1 0.
Definition fresh_state : RequestState := mkRequestState [] None.

(** ** Programs over the store *)

(** The operations a route performs on [db] and on [request.state].  A
    [db.query(...).filter(...).first()] yields the first matching row or
    [None]; [get_principal] and [get_identities] are the relationship loads
    ([identity.principal], [session.principal], [principal.identities]);
    [db_add] registers a new object or an attribute assignment with the unit
    of work. *)
Inductive Op : Type → Type :=
| query_identity (i prov : string) : Op (option orm.Identity.t)
| query_session (u : UUID) : Op (option orm.Session.t)
| query_principal (u : UUID) : Op (option orm.Principal.t)
| get_principal (pk : nat) : Op (option orm.Principal.t)
| get_identities (pk : nat) : Op (list orm.Identity.t)
| db_add (ch : Change) : Op unit
| db_commit : Op unit
| db_refresh_principal : Op (option orm.Principal.t)
| db_refresh_session : Op (option orm.Session.t)
| set_endpoint (label : string) : Op unit.

(** The queries, on the committed rows. *)
Definition find_identity (i prov : string) (s : Store) : option orm.Identity.t :=
  List.find
    (λ r, bool_decide (orm.Identity.id r = i)
          && bool_decide (orm.Identity.provider r = prov))
    (table_identities s).

Definition find_session (u : UUID) (s : Store) : option orm.Session.t :=
  List.find (λ r, bool_decide (orm.Session.uuid r = u)) (table_sessions s).

Definition find_principal (u : UUID) (s : Store) : option orm.Principal.t :=
  List.find (λ r, bool_decide (orm.Principal.uuid r = u)) (table_principals s).

Definition principal_by_id (pk : nat) (s : Store) : option orm.Principal.t :=
  List.find (λ r, bool_decide (orm.Principal.id r = pk)) (table_principals s).

Definition identities_of (pk : nat) (s : Store) : list orm.Identity.t :=
  List.filter (λ r, bool_decide (orm.Identity.principal_id r = pk))
    (table_identities s).

Definition perform {X} (op : Op X) (w : World) : X * World :=
  match op in Op X return X * World with
  | query_identity i prov => (find_identity i prov (store w), w)
  | query_session u => (find_session u (store w), w)
  | query_principal u => (find_principal u (store w), w)
  | get_principal pk => (principal_by_id pk (store w), w)
  | get_identities pk => (identities_of pk (store w), w)
  | db_add ch => (tt, add_pending ch w)
  | db_commit => (tt, commit_world w)
  | db_refresh_principal => (new_principal w, w)
  | db_refresh_session => (new_session w, w)
  | set_endpoint label =>
      (tt, mkWorld (store w) (pending w) (new_principal w) (new_session w)
             (mkRequestState (cookies_to_set (request_state w)) (Some label)))
  end.

(** A route body: it returns, raises, or performs an operation and goes on
    with its answer. *)
Inductive Prog (A : Type) : Type :=
| Ret (a : A)
| Throw (e : Exn)
| Do {X : Type} (op : Op X) (k : X → Prog A).
Arguments Ret {A} a.
Arguments Throw {A} e.
Arguments Do {A X} op k.

Fixpoint Prog_bind_fix {A B} (k : A → Prog B) (p : Prog A) : Prog B :=
  match p with
  | Ret a => k a
  | Throw e => Throw e
  | Do op h => Do op (λ x, Prog_bind_fix k (h x))
  end.

#[global] Instance Prog_ret : MRet Prog := λ A a, Ret a.
#[global] Instance Prog_bind : MBind Prog := λ A B k p, Prog_bind_fix k p.

Definition call {X} (op : Op X) : Prog X := Do op Ret.

Definition lift {A} (r : Result A) : Prog A :=
  match r with Return a => Ret a | Raise e => Throw e end.

(** Running a route body to its end on a database session. *)
Fixpoint exec {A} (p : Prog A) (w : World) : Result A * World :=
  match p with
  | Ret a => (Return a, w)
  | Throw e => (Raise e, w)
  | Do op k => let '(x, w') := perform op w in exec (k x) w'
  end.

(** Running it until the request is cancelled: at most [n] operations are
    performed; [None] when the body wanted more. *)
Fixpoint exec_upto {A} (n : nat) (p : Prog A) (w : World)
    : option (Result A) * World :=
  match p with
  | Ret a => (Some (Return a), w)
  | Throw e => (Some (Raise e), w)
  | Do op k =>
      match n with
      | O => (None, w)
      | S n' => let '(x, w') := perform op w in exec_upto n' (k x) w'
      end
  end.

(** Modelled from the spec: [get_db] of [tiled.server.utils] is not in src.
    A request owns one database session, closed when the request ends,
    however it ends; what is left then is the committed store, and changes
    that were pending are gone. *)
Definition durable (w : World) : Store := store w.

(** ** Session life cycle (lines 178-385) *)

(** The dictionary [create_session] and [slide_session] return.  The two
    [expires_in] entries are the ages divided by [UNIT_SECOND]; they are kept
    as the ages themselves. *)
Record TokenBundle : Type := mkTokenBundle {
  access_token : string;
  expires_in : Z;
  refresh_token : string;
  refresh_token_expires_in : Z;
  token_type : string
}.

Record Response : Type := mkResponse { status_code : Z; body : option string }.

Definition session_expired : Exn :=
  HTTPException 401 "Session has expired. Please re-authenticate." None.

Definition NoneType_has_no (attr : string) : Exn :=
  AttributeError ("'NoneType' object has no attribute '" +:+ attr +:+ "'").

(** [obj.attr] on a value that may be [None]. *)
Definition getattr {A} (attr : string) (obj : option A) : Prog A :=
  match obj with Some a => Ret a | None => Throw (NoneType_has_no attr) end.

(** [session.attr = value] on the result of a query. *)
Definition setattr (session : option orm.Session.t) (attr : string)
    (a : Assignment) : Prog unit :=
  s ← getattr attr session;
  call (db_add (Update_Session (orm.Session.id s) a)).

(** [db.refresh(obj)] on an object this unit of work has inserted. *)
Definition refreshed {A} (obj : option A) : Prog A :=
  match obj with Some a => Ret a | None => Throw InvalidRequestError end.

(** [settings.secret_keys[0]] *)
Definition first_secret_key (settings : Settings) : Result string :=
  match secret_keys settings with
  | k :: _ => Return k
  | [] => Raise IndexError
  end.

(** [Principal.from_orm]: reads [uuid], [type] and the [identities]
    relationship. *)
Definition Principal_from_orm (obj : option orm.Principal.t) : Prog Principal :=
  match obj with
  | None => Throw ValidationError
  | Some p =>
      ids ← call (get_identities (orm.Principal.id p));
      Ret (mkPrincipal (orm.Principal.uuid p) (orm.Principal.type p)
             (map (λ i, mkIdentity (orm.Identity.id i) (orm.Identity.provider i))
                  ids))
  end.

Section SessionManager.
Context `{Externals}.

(** The [data] dictionary of lines 215-222 and 343-350. *)
Definition token_data (principal : Principal) : Claims :=
  mkClaims None None None
    (Some (uuid_hex (uuid principal)))
    (Some (PrincipalType_value (type principal)))
    (Some (map (λ i, (id i, provider i)) (identities principal))).

Definition token_bundle (clk : Clock) (settings : Settings)
    (principal : Principal) (session_id : string) : Result TokenBundle :=
  let data := token_data principal in
  key_a ← first_secret_key settings;
  let access_token :=
    create_access_token clk data key_a (access_token_max_age settings) in
  key_r ← first_secret_key settings;
  let refresh_token :=
    create_refresh_token clk session_id key_r (refresh_token_max_age settings) in
  Return (mkTokenBundle access_token (access_token_max_age settings)
            refresh_token (refresh_token_max_age settings) "bearer").

Definition create_session (clk : Clock) (settings : Settings)
    (identity_provider id : string) : Prog TokenBundle :=
  identity ← call (query_identity id identity_provider);
  principal ←
    match identity with
    | None =>
        call (db_add (Insert_Principal user));;
        call db_commit;;
        principal ← call db_refresh_principal ≫= refreshed;
        call (db_add (Insert_Identity identity_provider id
                        (orm.Principal.id principal)));;
        call db_commit;;
        Ret principal
    | Some identity =>
        call (get_principal (orm.Identity.principal_id identity))
          ≫= getattr "id"
    end;
  call (db_add (Insert_Session (orm.Principal.id principal)
                  (now clk + session_max_age settings)));;
  call db_commit;;
  session ← call db_refresh_session ≫= refreshed;
  principal_model ← Principal_from_orm (Some principal);
  lift (token_bundle clk settings principal_model
          (uuid_hex (orm.Session.uuid session))).

Definition revoke_session (session_id : string) : Prog Response :=
  call (set_endpoint "auth");;
  u ← lift (UUID_from_hex session_id);
  session ← call (query_session u);
  setattr session "revoked" (set_revoked true);;
  call db_commit;;
  Ret (mkResponse 204 None).

Definition slide_session (clk : Clock) (refresh_token : string)
    (settings : Settings) : Prog TokenBundle :=
  match decode_token (utcnow clk) refresh_token (secret_keys settings) with
  | Raise ExpiredSignatureError => Throw session_expired
  | Raise e => Throw e
  | Return payload =>
      sid ← lift (getitem "sid" (c_sid payload));
      u ← lift (UUID_from_hex sid);
      session ← call (query_session u);
      let now := now clk in
      match session with
      | None => Throw session_expired
      | Some s =>
          if orm.Session.revoked s
             || (orm.Session.expiration_time s <? now)%Z
          then Throw session_expired
          else
            setattr session "time_last_refreshed"
              (set_time_last_refreshed now);;
            setattr session "refresh_count" (set_refresh_count_plus 1);;
            principal ←
              call (get_principal (orm.Session.principal_id s))
                ≫= Principal_from_orm;
            lift (token_bundle clk settings principal sid)
      end
  end.

Definition refresh_session (clk : Clock) (refresh_token : string)
    (settings : Settings) : Prog TokenBundle :=
  call (set_endpoint "auth");;
  slide_session clk refresh_token settings.

(** [whoami] on what [get_current_principal] returned.  The sentinels of
    [SpecialUsers] have no attribute [uuid]. *)
Definition whoami (principal : option Subject) : Prog (option Principal) :=
  call (set_endpoint "auth");;
  match principal with
  | None => Ret None
  | Some (Special _) =>
      Throw (AttributeError "'SpecialUsers' object has no attribute 'uuid'")
  | Some (Model p) =>
      principal_orm ← call (query_principal (uuid p));
      principal_model ← Principal_from_orm principal_orm;
      Ret (Some principal_model)
  end.

(** The [/whoami] route with its dependency resolved. *)
Definition whoami_route (clk : Clock) (request : Request) (settings : Settings)
    (authenticators : list string) (s : Store) : Result (option Principal) * World :=
  match current_principal clk request fresh_state settings authenticators with
  | (Raise e, st) => (Raise e, connect s st)
  | (Return principal, st) => exec (whoami (Some principal)) (connect s st)
  end.
End SessionManager.

(** ** A concrete instance of the imports *)

(** Hex form of a uuid: thirty-two lower-case digits. *)
Definition hex_digit (n : N) : ascii :=
  nth (N.to_nat n) (String.list_ascii_of_string "0123456789abcdef") "0"%char.

Fixpoint hex_digits (len : nat) (n : N) (acc : string) : string :=
  match len with
  | O => acc
  | S len' => hex_digits len' (n / 16)%N (String (hex_digit (n mod 16)%N) acc)
  end.

Definition hex_value (c : ascii) : option N :=
  let n := Ascii.N_of_ascii c in
  if ((48 <=? n) && (n <=? 57))%N then Some (n - 48)%N
  else if ((97 <=? n) && (n <=? 102))%N then Some (n - 87)%N
  else if ((65 <=? n) && (n <=? 70))%N then Some (n - 55)%N
  else None.

Fixpoint parse_hex (s : string) (acc : N) : option N :=
  match s with
  | EmptyString => Some acc
  | String c rest =>
      match hex_value c with
      | Some v => parse_hex rest (16 * acc + v)%N
      | None => None
      end
  end.

Definition demo_uuid_hex (u : UUID) : string := hex_digits 32 u "".

Definition demo_uuid_of_hex (hex : string) : option UUID :=
  if bool_decide (String.length hex = 32%nat) then parse_hex hex 0%N else None.

(** A token table standing for signed tokens: each token with the key that
    signed it and its claims.  A key verifies exactly the tokens it signed;
    a verified token is expired when its [exp] is before the clock. *)
Definition demo_decode (issued : list (string * (string * Claims)))
    (utc : Z) (token key : string) : JwtOutcome :=
  match List.find (λ e, bool_decide (fst e = token)) issued with
  | None => JwtJWTError
  | Some (_, (signer, claims)) =>
      if bool_decide (signer = key) then
        match c_exp claims with
        | Some exp => if (exp <? utc)%Z then JwtExpiredSignatureError
                      else JwtPayload claims
        | None => JwtPayload claims
        end
      else JwtJWTError
  end.

Definition demo_encode (claims : Claims) (key : string) : string :=
  key +:+ "." +:+ default "" (c_type claims) +:+ "."
      +:+ default (default "" (c_sub claims)) (c_sid claims).

Definition to_lower (c : ascii) : ascii :=
  let n := Ascii.N_of_ascii c in
  if ((65 <=? n) && (n <=? 90))%N then Ascii.ascii_of_N (n + 32) else c.

Fixpoint lower (s : string) : string :=
  match s with
  | EmptyString => EmptyString
  | String c rest => String (to_lower c) (lower rest)
  end.

(** [s.partition(" ")], without the separator. *)
Fixpoint partition_space (s : string) : string * string :=
  match s with
  | EmptyString => (EmptyString, EmptyString)
  | String c rest =>
      if bool_decide (c = " "%char) then (EmptyString, rest)
      else let '(scheme, param) := partition_space rest in
           (String c scheme, param)
  end.

(** [OAuth2PasswordBearer(auto_error=False)]: the parameter of an
    [Authorization] header whose scheme is [bearer] in any case. *)
Definition demo_bearer (request : Request) : option string :=
  match headers request !! "authorization" with
  | Some v =>
      let '(scheme, param) := partition_space v in
      if bool_decide (v = "") then None
      else if bool_decide (lower scheme = "bearer") then Some param
      else None
  | None => None
  end.

(** [APIKeyQuery], [APIKeyHeader] and [APIKeyCookie] with
    [auto_error=False]: the value, and [None] when it is missing or empty. *)
Definition demo_api_key (value : option string) : option string :=
  match value with
  | Some v => if bool_decide (v = "") then None else Some v
  | None => None
  end.

Definition demo_session_hex : string := "0000000000000000000000000000002a".

Definition demo_refresh_claims : Claims :=
  mkClaims (Some "refresh") (Some 900) (Some demo_session_hex) None None None.

Definition demo_access_claims : Claims :=
  mkClaims (Some "access") (Some 100)
    None (Some "00000000000000000000000000000007") (Some "user")
    (Some [("alice", "pam")]).

Definition demo_issued : list (string * (string * Claims)) :=
  [("refresh-token", ("K2", demo_refresh_claims));
   ("access-token", ("K2", demo_access_claims))].

Definition demo : Externals := {|
  jwt_encode := demo_encode;
  jwt_decode := demo_decode demo_issued;
  uuid_hex := demo_uuid_hex;
  uuid_of_hex := demo_uuid_of_hex;
  oauth2_scheme := demo_bearer;
  api_key_query := λ r, demo_api_key (query_params r !! API_KEY_QUERY_PARAMETER);
  api_key_header := λ r, demo_api_key (headers r !! API_KEY_HEADER_NAME);
  api_key_cookie := λ r, demo_api_key (cookies r !! API_KEY_COOKIE_NAME);
  get_base_url := base_url
|}.

Definition demo_settings : Settings :=
  mkSettings ["K1"; "K2"] "secret" false 900 604800 31536000.

Definition demo_request : Request := mkRequest ∅ ∅ ∅ "https://example.com/".

(** ** Notions the statements use *)

(** A key rejects a token when [jwt.decode] raises a [JWTError] other than
    [ExpiredSignatureError] under it. *)
Definition rejects `{Externals} (utc : Z) (token key : string) : Prop :=
  jwt_decode utc token key = JwtJWTError.

(** The principals of a store that no identity row links to. *)
Definition orphans (s : Store) : list orm.Principal.t :=
  List.filter
    (λ p, forallb
            (λ i, negb (bool_decide
                          (orm.Identity.principal_id i = orm.Principal.id p)))
            (table_identities s))
    (table_principals s).

(** A refreshed session row: [time_last_refreshed] and [refresh_count]
    change, every other field stays. *)
Definition refreshed_row (t : Z) (s : orm.Session.t) : orm.Session.t :=
  orm.Session.mk (orm.Session.id s) (orm.Session.uuid s)
    (orm.Session.principal_id s) (orm.Session.expiration_time s)
    (orm.Session.revoked s) (orm.Session.refresh_count s + 1) (Some t).

(** Every identity row points at a principal row. *)
Definition linked (s : Store) : Prop :=
  Forall (λ i, is_Some (principal_by_id (orm.Identity.principal_id i) s))
    (table_identities s).

(** The first carrier that is present, in the order given. *)
Fixpoint first_presented (carriers : list (option string)) : option string :=
  match carriers with
  | [] => None
  | Some api_key :: _ => Some api_key
  | None :: rest => first_presented rest
  end.

(** The carriers of the single-user API key, in the order
    [check_single_user_api_key] reads them. *)
Definition api_key_carriers `{Externals} (request : Request)
    : list (option string) :=
  [api_key_query request; api_key_header request; api_key_cookie request].

(** Concrete requests: one that carries a stale access-token cookie together
    with the right API key, and one whose API key is the single character
    U+00E9. *)
Definition stale_cookie_with_api_key : Request :=
  mkRequest {[ API_KEY_QUERY_PARAMETER := "secret" ]} ∅
    {[ ACCESS_TOKEN_COOKIE_NAME := "access-token" ]} "https://example.com/".

Definition stale_cookie : Request :=
  mkRequest ∅ ∅
    {[ ACCESS_TOKEN_COOKIE_NAME := "access-token" ]} "https://example.com/".

Definition e_acute : string := String (Ascii.ascii_of_N 233) EmptyString.

Definition non_ascii_api_key : Request :=
  mkRequest {[ API_KEY_QUERY_PARAMETER := e_acute ]}
    {[ "authorization" := "Bearer access-token" ]} ∅ "https://example.com/".

(** Concrete stores: principal 1 with identity [(pam, alice)] and one
    session whose uuid is 42, once revoked and once active. *)
Definition demo_principal : orm.Principal.t := orm.Principal.mk 1 7 user.
Definition demo_identity : orm.Identity.t := orm.Identity.mk "alice" "pam" 1.

Definition revoked_session : orm.Session.t :=
  orm.Session.mk 1 42 1 1000000 true 3 (Some 50).
Definition active_session : orm.Session.t :=
  orm.Session.mk 1 42 1 1000000 false 3 (Some 50).

Definition store_with (session : orm.Session.t) : Store :=
  mkStore [demo_principal] [demo_identity] [session] 2 2 100.

(** The durable store when the request is cancelled after [n]
    operations of the route body. *)
Definition interrupted_after {A} (n : nat) (p : Prog A) (w : World) : Store :=
  durable (snd (exec_upto n p w)).

(** The durable store when the route body has run to its end. *)
Definition completed {A} (p : Prog A) (w : World) : Store :=
  durable (snd (exec p w)).

(** The run of [slide_session] on the store with the active session. *)
Definition slid : Result TokenBundle * World :=
  exec (slide_session (H:=demo) (mkClock 60 500) "refresh-token" demo_settings)
       (connect (store_with active_session) fresh_state).

Definition slid_bundle : TokenBundle :=
  match fst slid with
  | Return bundle => bundle
  | Raise _ => mkTokenBundle "" 0 "" 0 ""
  end.

(** ** Login routes and logout (lines 242-280, 388-392) *)

Definition authentication_failure : Exn :=
  HTTPException 401 "Authentication failure" None.

Definition incorrect_username_or_password : Exn :=
  HTTPException 401 "Incorrect username or password"
                (Some [("WWW-Authenticate", "Bearer")]).

(** [not username] on what an authenticator returned: [None] and the empty
    string are falsy. *)
Definition not_username (username : option string) : bool :=
  match username with
  | None => true
  | Some name => bool_decide (name = "")
  end.

Section Routes.
Context `{Externals}.

(** The route built by [build_auth_code_route authenticator provider];
    [authenticate] is [authenticator.authenticate]. *)
Definition auth_code (authenticate : Request → option string)
    (provider : string) (clk : Clock) (request : Request)
    (settings : Settings) : Prog TokenBundle :=
  call (set_endpoint "auth");;
  let username := authenticate request in
  if not_username username then Throw authentication_failure
  else create_session clk settings provider (default "" username).

(** The route built by [build_handle_credentials_route authenticator
    provider], on the username and password of the form. *)
Definition handle_credentials (authenticate : string → string → option string)
    (provider : string) (clk : Clock) (form_username form_password : string)
    (settings : Settings) : Prog TokenBundle :=
  call (set_endpoint "auth");;
  let username := authenticate form_username form_password in
  if not_username username then Throw incorrect_username_or_password
  else create_session clk settings provider (default "" username).
End Routes.

(** [logout]: labels the endpoint and deletes two cookies on the response,
    given here as the names deleted so far; the body is the empty
    dictionary. *)
Definition logout (state : RequestState) (deleted : list string)
    : RequestState * list string :=
  (mkRequestState (cookies_to_set state) (Some "auth"),
   (deleted ++ [API_KEY_COOKIE_NAME; CSRF_COOKIE_NAME])%list).

(** The request a client sends next, once it has dropped the cookies a
    response deleted. *)
Definition without_cookies (names : list string) (request : Request) : Request :=
  mkRequest (query_params request) (headers request)
    (foldr delete (cookies request) names) (base_url request).

(** ** Further notions the statements use *)

(** The claims [create_access_token] encodes for a principal, and those
    [create_refresh_token] encodes for a session id. *)
Definition access_claims `{Externals} (clk : Clock) (p : Principal)
    (expires_delta : Z) : Claims :=
  mkClaims (Some "access") (Some (utcnow clk + expires_delta)) None
    (Some (uuid_hex (uuid p))) (Some (PrincipalType_value (type p)))
    (Some (map (λ i, (id i, provider i)) (identities p))).

Definition refresh_claims (clk : Clock) (session_id : string)
    (expires_delta : Z) : Claims :=
  mkClaims (Some "refresh") (Some (utcnow clk + expires_delta))
    (Some session_id) None None None.

(** The model [Principal.from_orm] builds from a principal row and the
    identity rows of a store. *)
Definition principal_model (p : orm.Principal.t) (s : Store) : Principal :=
  mkPrincipal (orm.Principal.uuid p) (orm.Principal.type p)
    (map (λ i, mkIdentity (orm.Identity.id i) (orm.Identity.provider i))
         (identities_of (orm.Principal.id p) s)).

(** The bundle issued under key [k] for a principal model and a session
    id. *)
Definition issued_bundle `{Externals} (clk : Clock) (settings : Settings)
    (k : string) (p : Principal) (session_id : string) : TokenBundle :=
  mkTokenBundle
    (create_access_token clk (token_data p) k (access_token_max_age settings))
    (access_token_max_age settings)
    (create_refresh_token clk session_id k (refresh_token_max_age settings))
    (refresh_token_max_age settings) "bearer".

(** No two identity rows share [(provider, id)]. *)
Definition unique_identities (s : Store) : Prop :=
  NoDup (map (λ i, (orm.Identity.provider i, orm.Identity.id i))
             (table_identities s)).

(** The unit of work of [w] flushed onto a store [s], as its commit would
    do on the rows the store holds by then. *)
Definition flushed_onto (s : Store) (w : World) : Store :=
  store (foldl flush_change (connect s (request_state w)) (pending w)).

(** A session row after [n] refreshes, the last one at [t]. *)
Definition refreshed_times (n : Z) (t : Z) (s : orm.Session.t) : orm.Session.t :=
  orm.Session.mk (orm.Session.id s) (orm.Session.uuid s)
    (orm.Session.principal_id s) (orm.Session.expiration_time s)
    (orm.Session.revoked s) (orm.Session.refresh_count s + n) (Some t).

(** An instance of the imports whose [jwt.decode] knows the tokens that
    [jwt.encode] made from the listed claims and keys. *)
Definition ledger (issued : list (Claims * string)) : Externals := {|
  jwt_encode := demo_encode;
  jwt_decode :=
    demo_decode (map (λ e, (demo_encode (fst e) (snd e), (snd e, fst e))) issued);
  uuid_hex := demo_uuid_hex;
  uuid_of_hex := demo_uuid_of_hex;
  oauth2_scheme := demo_bearer;
  api_key_query := λ r, demo_api_key (query_params r !! API_KEY_QUERY_PARAMETER);
  api_key_header := λ r, demo_api_key (headers r !! API_KEY_HEADER_NAME);
  api_key_cookie := λ r, demo_api_key (cookies r !! API_KEY_COOKIE_NAME);
  get_base_url := base_url
|}.

Definition alice : Principal :=
  mkPrincipal 7 user [mkIdentity "alice" "pam"].

(** The request a client sends next, once it has stored the cookies a
    response set. *)
Definition with_cookies (set : list (string * string)) (request : Request)
    : Request :=
  mkRequest (query_params request) (headers request)
    (foldl (λ jar c, <[fst c := snd c]> jar) (cookies request) set)
    (base_url request).

(** [request.state] once a route has labelled the endpoint. *)
Definition labelled (w : World) : World :=
  mkWorld (store w) (pending w) (new_principal w) (new_session w)
    (mkRequestState (cookies_to_set (request_state w)) (Some "auth")).

(** Concrete inputs for the round trips: the claims of an access token for
    [alice] and of the refresh token of the first session of an empty store,
    both signed with [K1], and requests that carry them as the access-token
    cookie. *)
Definition alice_claims : Claims :=
  access_claims (H:=demo) (mkClock 0 500) alice 900.

Definition first_session_claims : Claims :=
  refresh_claims (mkClock 10 20) (demo_uuid_hex 1) 604800.

Definition bank : Externals :=
  ledger [(alice_claims, "K1"); (first_session_claims, "K1")].

Definition alice_token : string := demo_encode alice_claims "K1".

Definition first_session_token : string := demo_encode first_session_claims "K1".

Definition alice_cookie : Request :=
  mkRequest ∅ ∅ {[ ACCESS_TOKEN_COOKIE_NAME := alice_token ]}
    "https://example.com/".

Definition refresh_token_cookie : Request :=
  mkRequest ∅ ∅ {[ ACCESS_TOKEN_COOKIE_NAME := first_session_token ]}
    "https://example.com/".

Definition keyless_settings : Settings :=
  mkSettings [] "secret" false 900 604800 31536000.

(** A request whose cookies hold the access token of [alice] and an API key
    that is not the configured one. *)
Definition alice_cookie_wrong_key : Request :=
  mkRequest ∅ ∅
    {[ ACCESS_TOKEN_COOKIE_NAME := alice_token; API_KEY_COOKIE_NAME := "wrong" ]}
    "https://example.com/".

(** A store that already holds a principal with its identity. *)
Definition store_of_alice : Store :=
  mkStore [demo_principal] [demo_identity] [] 2 1 100.

(** ** Key rotation in [decode_token] *)

Section TokenCodecFacts.
Context `{Externals}.
Implicit Types (utc : Z) (token : string) (keys pre rest : list string).

Lemma decode_token_skip utc token pre rest :
  Forall (rejects utc token) pre →
  decode_token utc token (pre ++ rest) = decode_token utc token rest.
Proof.
  induction 1 as [|k pre Hk _ IH]; [done|].
  simpl. unfold rejects in Hk. by rewrite Hk.
Qed.

Lemma decode_token_exhausted utc token keys :
  decode_token utc token keys = Raise credentials_exception ↔
  Forall (rejects utc token) keys.
Proof.
  induction keys as [|k keys IH]; simpl.
  - split; [constructor|done].
  - unfold rejects at 1.
    destruct (jwt_decode utc token k) eqn:Hk.
    + split; [done|]. intros Hall. apply Forall_cons in Hall as [Hr _].
      unfold rejects in Hr. congruence.
    + split; [done|]. intros Hall. apply Forall_cons in Hall as [Hr _].
      unfold rejects in Hr. congruence.
    + rewrite IH. split.
      * intros Hall. by constructor.
      * intros Hall. by apply Forall_cons in Hall as [_ ?].
Qed.

(** The outcome is that of the first key that does not reject. *)
Lemma decode_token_first utc token pre k rest :
  Forall (rejects utc token) pre →
  decode_token utc token (pre ++ k :: rest) =
  match jwt_decode utc token k with
  | JwtPayload payload => Return payload
  | JwtExpiredSignatureError => Raise ExpiredSignatureError
  | JwtJWTError => decode_token utc token rest
  end.
Proof. intros Hpre. by rewrite decode_token_skip. Qed.

(** A token that one key of the list verifies, and that every other key of
    the list verifies alike or rejects, decodes. *)
Lemma decode_token_still_present utc token keys k payload :
  k ∈ keys →
  jwt_decode utc token k = JwtPayload payload →
  Forall (λ k', jwt_decode utc token k' = JwtPayload payload
                ∨ rejects utc token k') keys →
  decode_token utc token keys = Return payload.
Proof.
  intros Hin Hk Hall. induction Hall as [|k0 keys Hk0 _ IH].
  - by apply elem_of_nil in Hin.
  - simpl. destruct Hk0 as [Hk0|Hk0].
    + by rewrite Hk0.
    + unfold rejects in Hk0. rewrite Hk0. apply IH.
      apply elem_of_cons in Hin as [->|Hin]; [congruence|done].
Qed.

(** C2: [decode_token] tries the keys in order.  When the keys before [k]
    all reject the token and [k] verifies it, the claims are returned,
    whatever keys follow; when [k] instead finds the signature valid and the
    claims expired, [ExpiredSignatureError] is raised, whatever keys follow;
    the "Could not validate credentials" failure is raised exactly when
    every key rejects the token; and a token that a key of the list
    verifies, while the other keys verify it alike or reject it, decodes. *)
Theorem decode_token_key_rotation utc token :
  (∀ pre k rest payload,
      Forall (rejects utc token) pre →
      jwt_decode utc token k = JwtPayload payload →
      decode_token utc token (pre ++ k :: rest) = Return payload)
  ∧ (∀ pre k rest,
      Forall (rejects utc token) pre →
      jwt_decode utc token k = JwtExpiredSignatureError →
      decode_token utc token (pre ++ k :: rest) = Raise ExpiredSignatureError)
  ∧ (∀ keys,
      decode_token utc token keys
        = Raise (HTTPException 401 "Could not validate credentials"
                   (Some [("WWW-Authenticate", "Bearer")]))
      ↔ Forall (rejects utc token) keys)
  ∧ (∀ keys k payload,
      k ∈ keys →
      jwt_decode utc token k = JwtPayload payload →
      Forall (λ k', jwt_decode utc token k' = JwtPayload payload
                    ∨ rejects utc token k') keys →
      decode_token utc token keys = Return payload).
Proof.
  split; [|split; [|split]].
  - intros pre k rest payload Hpre Hk.
    by rewrite decode_token_first, Hk.
  - intros pre k rest Hpre Hk.
    by rewrite decode_token_first, Hk.
  - intros keys. apply decode_token_exhausted.
  - intros keys k payload Hin Hk Hall.
    by apply decode_token_still_present with k.
Qed.
End TokenCodecFacts.

(** A token signed with the retained key [K2] decodes under [K1; K2] and
    fails with the credentials error, not with expiry, under [K1] alone. *)
Lemma decode_token_key_rotation_witness :
  decode_token (H:=demo) 500 "refresh-token" ["K1"; "K2"]
    = Return demo_refresh_claims
  ∧ decode_token (H:=demo) 500 "refresh-token" ["K1"]
    = Raise credentials_exception.
Proof.
  pose proof (decode_token_key_rotation (H:=demo) 500 "refresh-token")
    as (Hok & _ & Hbad & _).
  split.
  - apply (Hok ["K1"] "K2" []); [|reflexivity].
    repeat constructor.
  - apply Hbad. repeat constructor.
Defined.

(** ** Resolution of the current principal *)

Section ResolutionFacts.
Context `{Externals}.

Lemma check_api_keys_none settings (carriers : list (option string)) :
  first_presented carriers = None →
  check_api_keys carriers settings = Return false.
Proof.
  induction carriers as [|[k|] carriers IH]; simpl; [done|done|auto].
Qed.

Lemma check_api_keys_first settings (carriers : list (option string)) api_key :
  first_presented carriers = Some api_key →
  check_api_keys carriers settings =
  match compare_digest api_key (single_user_api_key settings) with
  | Return true => Return true
  | Return false => Raise invalid_api_key
  | Raise e => Raise e
  end.
Proof.
  induction carriers as [|[k|] carriers IH]; simpl; [done| |auto].
  by intros [= ->].
Qed.

Lemma resolve_without_credentials clk request state settings authenticators :
  cookies request !! ACCESS_TOKEN_COOKIE_NAME = None →
  oauth2_scheme request = None →
  first_presented (api_key_carriers request) = None →
  current_principal clk request state settings authenticators =
    if allow_anonymous_access settings
    then (Return (Special public), state)
    else (Raise (not_authenticated (get_base_url request)), state).
Proof.
  intros Hcookie Hbearer Hkeys.
  unfold current_principal, check_single_user_api_key.
  change [api_key_query request; api_key_header request; api_key_cookie request]
    with (api_key_carriers request).
  rewrite (check_api_keys_none _ _ Hkeys).
  unfold get_current_principal, access_token_from_either_location.
  rewrite andb_false_r, Hcookie, Hbearer.
  by destruct (allow_anonymous_access settings).
Qed.

(** C7: a request with no access token (no cookie, no bearer header) and no
    API key resolves to the Public sentinel when anonymous access is allowed,
    and otherwise fails with 401 "Not authenticated" whose [X-Tiled-Root]
    header is the base URL.  Resolution is a function of the request, the
    settings and the clock: it is handed no database session. *)
Theorem no_credentials_resolution clk request state settings authenticators :
  cookies request !! ACCESS_TOKEN_COOKIE_NAME = None →
  oauth2_scheme request = None →
  api_key_query request = None →
  api_key_header request = None →
  api_key_cookie request = None →
  current_principal clk request state settings authenticators =
    if allow_anonymous_access settings
    then (Return (Special public), state)
    else (Raise (HTTPException 401 "Not authenticated"
                   (Some [("X-Tiled-Root", get_base_url request)])), state).
Proof.
  intros Hcookie Hbearer Hq Hh Hc.
  apply resolve_without_credentials; [done|done|].
  unfold api_key_carriers. by rewrite Hq, Hh, Hc.
Qed.

(** What [get_current_principal] itself does with a token that is expired
    or that every key rejects, when lines 128-133 do not answer Admin. *)
Lemma get_current_principal_expired clk request state access_token
    has_single_user_api_key settings authenticators token :
  access_token_from_either_location request access_token = Some token →
  bool_decide (authenticators = []) && has_single_user_api_key = false →
  let resolved :=
    get_current_principal clk request state access_token
      has_single_user_api_key settings authenticators in
  (∀ pre k rest,
      secret_keys settings = (pre ++ k :: rest)%list →
      Forall (rejects (utcnow clk) token) pre →
      jwt_decode (utcnow clk) token k = JwtExpiredSignatureError →
      resolved =
        (Raise (HTTPException 401 "Access token has expired. Refresh token."
                  None), state))
  ∧ (Forall (rejects (utcnow clk) token) (secret_keys settings) →
      resolved =
        (Raise (HTTPException 401 "Could not validate credentials"
                  (Some [("WWW-Authenticate", "Bearer")])), state))
  ∧ access_token_expired ≠ credentials_exception.
Proof.
  intros Htoken Hkey resolved. subst resolved.
  unfold get_current_principal. rewrite Hkey, Htoken.
  split; [|split].
  - intros pre k rest -> Hpre Hk.
    by rewrite decode_token_first, Hk.
  - intros Hall. apply decode_token_exhausted in Hall. by rewrite Hall.
  - discriminate.
Qed.

(** The requests the API key check lets through to the token: no carrier is
    present, or the first present carrier holds the configured ASCII key
    while an authenticator is configured. *)
Lemma api_key_check_lets_through clk request state settings authenticators :
  first_presented (api_key_carriers request) = None
  ∨ (authenticators ≠ []
     ∧ first_presented (api_key_carriers request)
       = Some (single_user_api_key settings)
     ∧ is_ascii (single_user_api_key settings) = true) →
  ∃ has_single_user_api_key,
    bool_decide (authenticators = []) && has_single_user_api_key = false
    ∧ current_principal clk request state settings authenticators
      = get_current_principal clk request state (oauth2_scheme request)
          has_single_user_api_key settings authenticators.
Proof.
  unfold current_principal, check_single_user_api_key.
  change [api_key_query request; api_key_header request; api_key_cookie request]
    with (api_key_carriers request).
  intros [Hnone|(Hauth & Hfirst & Hascii)].
  - exists false. rewrite (check_api_keys_none _ _ Hnone).
    by rewrite andb_false_r.
  - exists true. rewrite (check_api_keys_first _ _ _ Hfirst).
    unfold compare_digest. rewrite Hascii. simpl.
    rewrite (bool_decide_eq_false_2 _ Hauth).
    by rewrite (bool_decide_eq_true_2
                  (single_user_api_key settings = single_user_api_key settings)).
Qed.

(** C8, as amended: for a request that the API key check lets through (no
    API key carrier is present, or the first present carrier holds the
    configured ASCII key while an authenticator is configured), whose access
    token is the cookie, else the bearer token: when the first key that does
    not reject the token finds it expired, the request fails with 401
    "Access token has expired. Refresh token."; when every key rejects it,
    the failure is "Could not validate credentials"; the two differ. *)
Theorem expired_access_token_resolution clk request state settings
    authenticators token :
  access_token_from_either_location request (oauth2_scheme request)
    = Some token →
  first_presented (api_key_carriers request) = None
  ∨ (authenticators ≠ []
     ∧ first_presented (api_key_carriers request)
       = Some (single_user_api_key settings)
     ∧ is_ascii (single_user_api_key settings) = true) →
  let resolved := current_principal clk request state settings authenticators in
  (∀ pre k rest,
      secret_keys settings = (pre ++ k :: rest)%list →
      Forall (rejects (utcnow clk) token) pre →
      jwt_decode (utcnow clk) token k = JwtExpiredSignatureError →
      resolved =
        (Raise (HTTPException 401 "Access token has expired. Refresh token."
                  None), state))
  ∧ (Forall (rejects (utcnow clk) token) (secret_keys settings) →
      resolved =
        (Raise (HTTPException 401 "Could not validate credentials"
                  (Some [("WWW-Authenticate", "Bearer")])), state))
  ∧ access_token_expired ≠ credentials_exception.
Proof.
  intros Htoken Hcheck resolved. subst resolved.
  destruct (api_key_check_lets_through clk request state settings
              authenticators Hcheck) as (has_key & Hgate & ->).
  exact (get_current_principal_expired clk request state
           (oauth2_scheme request) has_key settings authenticators token
           Htoken Hgate).
Qed.

(** C10, the failing input: when the first carrier that is present holds a
    key with a non-ASCII character, [compare_digest] raises [TypeError] and
    the request ends with it, not with 401 "Invalid API key". *)
Theorem non_ascii_api_key_raises clk request state settings authenticators
    api_key :
  first_presented (api_key_carriers request) = Some api_key →
  is_ascii api_key = false →
  current_principal clk request state settings authenticators =
    (Raise (TypeError
              "comparing strings with non-ASCII characters is not supported"),
     state).
Proof.
  intros Hfirst Hascii.
  unfold current_principal, check_single_user_api_key.
  change [api_key_query request; api_key_header request; api_key_cookie request]
    with (api_key_carriers request).
  rewrite (check_api_keys_first _ _ _ Hfirst).
  unfold compare_digest. by rewrite Hascii.
Qed.

(** For ASCII keys the first carrier that is present decides: a match hands
    over to [get_current_principal], a mismatch is 401 "Invalid API key"
    whatever else the request carries. *)
Lemma ascii_api_key_decides clk request state settings authenticators api_key :
  first_presented (api_key_carriers request) = Some api_key →
  is_ascii api_key = true →
  is_ascii (single_user_api_key settings) = true →
  current_principal clk request state settings authenticators =
    if bool_decide (api_key = single_user_api_key settings)
    then get_current_principal clk request state (oauth2_scheme request) true
           settings authenticators
    else (Raise (HTTPException 401 "Invalid API key" None), state).
Proof.
  intros Hfirst Ha Hs.
  unfold current_principal, check_single_user_api_key.
  change [api_key_query request; api_key_header request; api_key_cookie request]
    with (api_key_carriers request).
  rewrite (check_api_keys_first _ _ _ Hfirst).
  unfold compare_digest. rewrite Ha, Hs. simpl.
  by destruct (bool_decide _).
Qed.
End ResolutionFacts.

Lemma no_credentials_resolution_witness :
  current_principal (H:=demo) (mkClock 0 500) demo_request fresh_state
    demo_settings ["pam"]
  = (Raise (HTTPException 401 "Not authenticated"
              (Some [("X-Tiled-Root", "https://example.com/")])), fresh_state).
Proof.
  exact (no_credentials_resolution (H:=demo) (mkClock 0 500) demo_request
           fresh_state demo_settings ["pam"]
           eq_refl eq_refl eq_refl eq_refl eq_refl).
Defined.

(** C8, the counterexample: a request whose access-token cookie is valid
    under [K2] and expired, and which also carries the right single-user API
    key while no authenticator is configured, resolves to Admin. *)
Lemma expired_token_with_api_key_is_admin :
  access_token_from_either_location stale_cookie_with_api_key
    (oauth2_scheme (Externals:=demo) stale_cookie_with_api_key)
  = Some "access-token"
  ∧ decode_token (H:=demo) 500 "access-token" (secret_keys demo_settings)
    = Raise ExpiredSignatureError
  ∧ fst (current_principal (H:=demo) (mkClock 0 500) stale_cookie_with_api_key
           fresh_state demo_settings [])
    = Return (Special admin)
  ∧ fst (get_current_principal (H:=demo) (mkClock 0 500)
           stale_cookie_with_api_key fresh_state None true demo_settings [])
    = Return (Special admin).
Proof. by vm_compute. Qed.

Lemma expired_access_token_resolution_witness :
  current_principal (H:=demo) (mkClock 0 500) stale_cookie_with_api_key
    fresh_state demo_settings ["pam"]
  = (Raise (HTTPException 401 "Access token has expired. Refresh token." None),
     fresh_state).
Proof.
  refine (proj1 (expired_access_token_resolution (H:=demo) (mkClock 0 500)
                   stale_cookie_with_api_key fresh_state demo_settings ["pam"]
                   "access-token" _ _) ["K1"] "K2" [] _ _ _).
  - by vm_compute.
  - right. split; [discriminate|]. split; by vm_compute.
  - reflexivity.
  - repeat constructor.
  - reflexivity.
Defined.

Lemma non_ascii_api_key_raises_witness :
  current_principal (H:=demo) (mkClock 0 500) non_ascii_api_key fresh_state
    demo_settings ["pam"]
  = (Raise (TypeError
              "comparing strings with non-ASCII characters is not supported"),
     fresh_state).
Proof.
  refine (non_ascii_api_key_raises (H:=demo) (mkClock 0 500) non_ascii_api_key
            fresh_state demo_settings ["pam"] e_acute _ _).
  - by vm_compute.
  - reflexivity.
Defined.

(** ** Refusal to slide, revocation and [whoami] *)

Section RefusalFacts.
Context `{Externals}.

(** C1: for a refresh token that decodes and names a session, a session
    that is missing from the store, one that is revoked and one whose
    [expiration_time] is before the clock are all answered with the same
    failure, 401 "Session has expired. Please re-authenticate.", and the
    database session is left as it was. *)
Theorem slide_session_uniform_refusal clk refresh_token settings payload sid u
    (w : World) :
  decode_token (utcnow clk) refresh_token (secret_keys settings)
    = Return payload →
  c_sid payload = Some sid →
  uuid_of_hex sid = Some u →
  find_session u (store w) = None
  ∨ (∃ row, find_session u (store w) = Some row
            ∧ orm.Session.revoked row = true)
  ∨ (∃ row, find_session u (store w) = Some row
            ∧ (orm.Session.expiration_time row < now clk)%Z) →
  exec (slide_session clk refresh_token settings) w =
    (Raise (HTTPException 401 "Session has expired. Please re-authenticate."
              None), w).
Proof.
  intros Hdecode Hsid Hu Hcase.
  unfold slide_session. rewrite Hdecode, Hsid. simpl.
  unfold UUID_from_hex. rewrite Hu. simpl.
  destruct Hcase as [Hnone|[(row & Hrow & Hrev)|(row & Hrow & Hexp)]].
  - by rewrite Hnone.
  - rewrite Hrow, Hrev. done.
  - rewrite Hrow. apply Z.ltb_lt in Hexp. rewrite Hexp, orb_true_r. done.
Qed.

(** C3, the failing input: a well-formed session id that matches no stored
    session makes [revoke_session] raise [AttributeError] on [None]; nothing
    is committed and no 204 is returned. *)
Theorem revoke_missing_session_raises session_id u (w : World) :
  uuid_of_hex session_id = Some u →
  find_session u (store w) = None →
  fst (exec (revoke_session session_id) w)
    = Raise (AttributeError "'NoneType' object has no attribute 'revoked'")
  ∧ durable (snd (exec (revoke_session session_id) w)) = durable w.
Proof.
  intros Hu Hnone. unfold revoke_session. simpl.
  unfold UUID_from_hex. rewrite Hu. simpl. by rewrite Hnone.
Qed.

(** On a stored session, revocation commits [revoked = true] on its row and
    answers 204 with no body. *)
Lemma revoke_stored_session session_id u row (s : Store) st :
  uuid_of_hex session_id = Some u →
  find_session u s = Some row →
  fst (exec (revoke_session session_id) (connect s st))
    = Return (mkResponse 204 None)
  ∧ table_sessions (durable (snd (exec (revoke_session session_id)
                                     (connect s st))))
    = update_session (orm.Session.id row) (set_revoked true) (table_sessions s).
Proof.
  intros Hu Hrow. unfold revoke_session. simpl.
  unfold UUID_from_hex. rewrite Hu. simpl. by rewrite Hrow.
Qed.

(** Revoking twice is revoking once. *)
Lemma revoke_idempotent pk (rows : list orm.Session.t) :
  update_session pk (set_revoked true) (update_session pk (set_revoked true) rows)
  = update_session pk (set_revoked true) rows.
Proof.
  unfold update_session. rewrite List.map_map. apply List.map_ext.
  intros r. destruct (bool_decide (orm.Session.id r = pk)) eqn:Hpk; simpl;
    by rewrite Hpk.
Qed.
(** C9, the failing input: a request that resolves to the Public sentinel
    makes [whoami] raise [AttributeError], since the sentinel is not [None]
    and has no [uuid]. *)
Theorem whoami_public_raises clk request settings authenticators (s : Store) :
  cookies request !! ACCESS_TOKEN_COOKIE_NAME = None →
  oauth2_scheme request = None →
  first_presented (api_key_carriers request) = None →
  allow_anonymous_access settings = true →
  fst (current_principal clk request fresh_state settings authenticators)
    = Return (Special public)
  ∧ fst (whoami_route clk request settings authenticators s)
    = Raise (AttributeError "'SpecialUsers' object has no attribute 'uuid'").
Proof.
  intros Hcookie Hbearer Hkeys Hanon.
  unfold whoami_route.
  rewrite (resolve_without_credentials _ _ _ _ _ Hcookie Hbearer Hkeys), Hanon.
  done.
Qed.

(** For an authenticated principal [whoami] answers with the stored record
    and its identities. *)
Lemma whoami_stored_principal (p : Principal) row (w : World) :
  find_principal (uuid p) (store w) = Some row →
  fst (exec (whoami (Some (Model p))) w)
    = Return (Some (mkPrincipal (orm.Principal.uuid row) (orm.Principal.type row)
                      (map (λ i, mkIdentity (orm.Identity.id i)
                                   (orm.Identity.provider i))
                           (identities_of (orm.Principal.id row) (store w))))).
Proof. intros Hrow. simpl. by rewrite Hrow. Qed.
End RefusalFacts.

Lemma slide_session_uniform_refusal_witness :
  exec (slide_session (H:=demo) (mkClock 60 500) "refresh-token" demo_settings)
       (connect (store_with revoked_session) fresh_state)
  = (Raise (HTTPException 401 "Session has expired. Please re-authenticate."
              None),
     connect (store_with revoked_session) fresh_state).
Proof.
  refine (slide_session_uniform_refusal (H:=demo) (mkClock 60 500)
            "refresh-token" demo_settings demo_refresh_claims demo_session_hex
            42%N (connect (store_with revoked_session) fresh_state) _ _ _ _).
  - reflexivity.
  - reflexivity.
  - reflexivity.
  - right; left. exists revoked_session. split; reflexivity.
Defined.

Lemma revoke_missing_session_raises_witness :
  fst (exec (revoke_session (H:=demo) demo_session_hex)
         (connect empty_store fresh_state))
    = Raise (AttributeError "'NoneType' object has no attribute 'revoked'")
  ∧ durable (snd (exec (revoke_session (H:=demo) demo_session_hex)
                    (connect empty_store fresh_state)))
    = durable (connect empty_store fresh_state).
Proof.
  exact (revoke_missing_session_raises (H:=demo) demo_session_hex 42%N
           (connect empty_store fresh_state) eq_refl eq_refl).
Defined.

Lemma whoami_public_raises_witness :
  fst (current_principal (H:=demo) (mkClock 0 500) demo_request fresh_state
         (mkSettings ["K1"; "K2"] "secret" true 900 604800 31536000) [])
    = Return (Special public)
  ∧ fst (whoami_route (H:=demo) (mkClock 0 500) demo_request
           (mkSettings ["K1"; "K2"] "secret" true 900 604800 31536000) []
           (store_with active_session))
    = Raise (AttributeError "'SpecialUsers' object has no attribute 'uuid'").
Proof.
  exact (whoami_public_raises (H:=demo) (mkClock 0 500) demo_request
           (mkSettings ["K1"; "K2"] "secret" true 900 604800 31536000) []
           (store_with active_session) eq_refl eq_refl eq_refl eq_refl).
Defined.

(** ** Session creation *)

Section CreationFacts.
Context `{Externals}.

Lemma exec_upto_lift {A} n (r : Result A) (w : World) :
  exec_upto n (lift r) w = (Some r, w).
Proof. by destruct r, n. Qed.

Lemma exec_lift {A} (r : Result A) (w : World) : exec (lift r) w = (r, w).
Proof. by destruct r. Qed.

(** C4, as amended: for a pair with no Identity yet, [create_session]
    commits the new Principal (type user) in a first transaction and the
    Identity that links it in a second one.  A call cancelled before the
    third operation leaves the store unchanged; cancelled from there and
    before the sixth, it leaves the Principal committed and the identity
    table as it was; from the sixth operation on, and when the call runs to
    its end, both rows are committed. *)
Theorem create_session_two_transactions clk settings identity_provider id
    (s : Store) st :
  find_identity id identity_provider s = None →
  let p := orm.Principal.mk (principal_seq s) (uuid4_source s) user in
  let i := orm.Identity.mk id identity_provider (principal_seq s) in
  let body := create_session clk settings identity_provider id in
  (∀ n, (n < 3)%nat → interrupted_after n body (connect s st) = s)
  ∧ (∀ n, (3 ≤ n < 6)%nat →
       table_principals (interrupted_after n body (connect s st))
         = (table_principals s ++ [p])%list
       ∧ table_identities (interrupted_after n body (connect s st))
         = table_identities s)
  ∧ (∀ n, (6 ≤ n)%nat →
       table_principals (interrupted_after n body (connect s st))
         = (table_principals s ++ [p])%list
       ∧ table_identities (interrupted_after n body (connect s st))
         = (table_identities s ++ [i])%list)
  ∧ table_principals (completed body (connect s st))
      = (table_principals s ++ [p])%list
  ∧ table_identities (completed body (connect s st))
      = (table_identities s ++ [i])%list.
Proof.
  intros Hnone p i body. subst body p i.
  unfold interrupted_after, completed, create_session.
  repeat split.
  - intros n Hn. destruct s.
    destruct n as [|[|[|n]]]; [| | |lia]; simpl; rewrite ?Hnone; done.
  - destruct n as [|[|[|[|[|[|n]]]]]]; try lia; simpl; rewrite Hnone; done.
  - destruct n as [|[|[|[|[|[|n]]]]]]; try lia; simpl; rewrite Hnone; done.
  - destruct n as [|[|[|[|[|[|[|[|[|[|n]]]]]]]]]]; try lia;
      simpl; rewrite Hnone; simpl; rewrite ?exec_upto_lift; done.
  - destruct n as [|[|[|[|[|[|[|[|[|[|n]]]]]]]]]]; try lia;
      simpl; rewrite Hnone; simpl; rewrite ?exec_upto_lift; done.
  - simpl. rewrite Hnone. simpl. by rewrite exec_lift.
  - simpl. rewrite Hnone. simpl. by rewrite exec_lift.
Qed.
End CreationFacts.

(** C4, the counterexample: on the empty store, a first login cancelled
    after four operations has committed the Principal and no Identity. *)
Lemma create_session_not_atomic :
  find_identity "alice" "pam" empty_store = None
  ∧ interrupted_after 4
      (create_session (H:=demo) (mkClock 10 20) demo_settings "pam" "alice")
      (connect empty_store fresh_state)
    ≠ empty_store
  ∧ orphans
      (interrupted_after 4
         (create_session (H:=demo) (mkClock 10 20) demo_settings "pam" "alice")
         (connect empty_store fresh_state))
    = [orm.Principal.mk 1 0 user]
  ∧ table_identities
      (interrupted_after 4
         (create_session (H:=demo) (mkClock 10 20) demo_settings "pam" "alice")
         (connect empty_store fresh_state))
    = [].
Proof. repeat split; by vm_compute. Qed.

Lemma create_session_two_transactions_witness :
  table_principals
    (completed
       (create_session (H:=demo) (mkClock 10 20) demo_settings "pam" "alice")
       (connect empty_store fresh_state))
    = [orm.Principal.mk 1 0 user]
  ∧ table_identities
      (completed
         (create_session (H:=demo) (mkClock 10 20) demo_settings "pam" "alice")
         (connect empty_store fresh_state))
    = [orm.Identity.mk "alice" "pam" 1].
Proof.
  exact (proj2 (proj2 (proj2
    (create_session_two_transactions (H:=demo) (mkClock 10 20) demo_settings
       "pam" "alice" empty_store fresh_state eq_refl)))).
Defined.

(** ** Sliding *)

Section SlidingFacts.
Context `{Externals}.

Lemma update_session_twice pk t (rows : list orm.Session.t) :
  update_session pk (set_refresh_count_plus 1)
    (update_session pk (set_time_last_refreshed t) rows)
  = map (λ r, if bool_decide (orm.Session.id r = pk)
              then refreshed_row t r else r) rows.
Proof.
  unfold update_session. rewrite List.map_map. apply List.map_ext.
  intros r. destruct (bool_decide (orm.Session.id r = pk)) eqn:Hpk; simpl.
  - rewrite Hpk. done.
  - rewrite Hpk. done.
Qed.

Lemma refreshed_rows_keep_expiration pk t (rows : list orm.Session.t) :
  map orm.Session.expiration_time
    (map (λ r, if bool_decide (orm.Session.id r = pk)
               then refreshed_row t r else r) rows)
  = map orm.Session.expiration_time rows.
Proof.
  rewrite List.map_map. apply List.map_ext. intros r.
  by destruct (bool_decide _).
Qed.

(** C5: a successful [slide_session] is a call on a stored session that is
    neither revoked nor expired; it commits nothing itself and leaves in the
    unit of work exactly two assignments on that session:
    [time_last_refreshed = now] and the store-side expression
    [refresh_count = refresh_count + 1].  Once flushed, the rows of that
    session differ from before in these two fields only; [expiration_time]
    is unchanged on every row, and so are the other tables. *)
Theorem slide_session_frame clk refresh_token settings (s : Store) st bundle
    (w' : World) :
  exec (slide_session clk refresh_token settings) (connect s st)
    = (Return bundle, w') →
  ∃ payload sid u row,
    decode_token (utcnow clk) refresh_token (secret_keys settings)
      = Return payload
    ∧ c_sid payload = Some sid
    ∧ uuid_of_hex sid = Some u
    ∧ find_session u s = Some row
    ∧ orm.Session.revoked row = false
    ∧ (now clk ≤ orm.Session.expiration_time row)%Z
    ∧ durable w' = s
    ∧ pending w' =
        [Update_Session (orm.Session.id row) (set_time_last_refreshed (now clk));
         Update_Session (orm.Session.id row) (set_refresh_count_plus 1)]
    ∧ table_sessions (durable (commit_world w'))
      = map (λ r, if bool_decide (orm.Session.id r = orm.Session.id row)
                  then refreshed_row (now clk) r else r) (table_sessions s)
    ∧ map orm.Session.expiration_time (table_sessions (durable (commit_world w')))
      = map orm.Session.expiration_time (table_sessions s)
    ∧ table_principals (durable (commit_world w')) = table_principals s
    ∧ table_identities (durable (commit_world w')) = table_identities s.
Proof.
  unfold slide_session. intros Hrun.
  destruct (decode_token _ _ _) as [payload|e] eqn:Hdecode;
    [|destruct e; simpl in Hrun; discriminate].
  destruct (c_sid payload) as [sid|] eqn:Hsid; [|discriminate].
  simpl in Hrun. unfold UUID_from_hex in Hrun.
  destruct (uuid_of_hex sid) as [u|] eqn:Hu; [|discriminate].
  simpl in Hrun.
  destruct (find_session u s) as [row|] eqn:Hrow; [|discriminate].
  destruct (orm.Session.revoked row) eqn:Hrev; [discriminate|].
  destruct (orm.Session.expiration_time row <? now clk)%Z eqn:Hexp;
    [discriminate|].
  simpl in Hrun.
  destruct (principal_by_id _ s) as [p|]; [|discriminate].
  simpl in Hrun. rewrite exec_lift in Hrun.
  injection Hrun as _ <-.
  exists payload, sid, u, row.
  apply Z.ltb_ge in Hexp.
  unfold durable, commit_world. simpl.
  rewrite update_session_twice.
  repeat split; try done.
  apply refreshed_rows_keep_expiration.
Qed.

(** The increment is evaluated on the row the store holds. *)
Lemma refresh_count_store_side (row : orm.Session.t) :
  orm.Session.refresh_count (assign (set_refresh_count_plus 1) row)
    = (orm.Session.refresh_count row + 1)%Z
  ∧ orm.Session.expiration_time (assign (set_refresh_count_plus 1) row)
    = orm.Session.expiration_time row.
Proof. done. Qed.

(** An active session with a stored principal does slide. *)
Lemma slide_session_active clk refresh_token settings payload sid u row p key
    keys (s : Store) st :
  decode_token (utcnow clk) refresh_token (secret_keys settings)
    = Return payload →
  c_sid payload = Some sid →
  uuid_of_hex sid = Some u →
  find_session u s = Some row →
  orm.Session.revoked row = false →
  (now clk ≤ orm.Session.expiration_time row)%Z →
  principal_by_id (orm.Session.principal_id row) s = Some p →
  secret_keys settings = key :: keys →
  is_raise (fst (exec (slide_session clk refresh_token settings)
                   (connect s st))) = false.
Proof.
  intros Hdecode Hsid Hu Hrow Hrev Hexp Hp Hkeys.
  unfold slide_session. rewrite Hdecode, Hsid. simpl.
  unfold UUID_from_hex. rewrite Hu. simpl. rewrite Hrow, Hrev.
  apply Z.ltb_ge in Hexp. rewrite Hexp. simpl. rewrite Hp. simpl.
  rewrite exec_lift. unfold token_bundle, first_secret_key.
  by rewrite Hkeys.
Qed.

End SlidingFacts.

Lemma slide_session_frame_witness :
  pending (snd slid) =
    [Update_Session 1 (set_time_last_refreshed 60);
     Update_Session 1 (set_refresh_count_plus 1)]
  ∧ map orm.Session.expiration_time
      (table_sessions (durable (commit_world (snd slid))))
    = [1000000%Z].
Proof.
  destruct (slide_session_frame (H:=demo) (mkClock 60 500) "refresh-token"
              demo_settings (store_with active_session) fresh_state
              slid_bundle (snd slid) eq_refl)
    as (payload & sid & u & row & _ & _ & _ & Hrow & _ & _ & _ & Hpending
        & _ & Hexp & _).
  unfold find_session in Hrow. simpl in Hrow.
  destruct (bool_decide _); [injection Hrow as <-|discriminate].
  split; [exact Hpending|exact Hexp].
Defined.

(** ** Logging in twice *)

Section RepeatedLogin.
Context `{Externals}.

Lemma find_snoc_none {A} (f : A → bool) (l : list A) (x : A) :
  List.find f l = None →
  List.find f (l ++ [x]) = if f x then Some x else None.
Proof.
  induction l as [|y l IH]; simpl; [done|].
  destruct (f y); [done|auto].
Qed.

Lemma find_snoc_hit {A} (f : A → bool) (l : list A) (x : A) :
  f x = true → ∃ y, List.find f (l ++ [x]) = Some y ∧ f y = true.
Proof.
  intros Hx. induction l as [|y l IH]; simpl.
  - rewrite Hx. eauto.
  - destruct (f y) eqn:Hy; eauto.
Qed.

Lemma create_session_new clk settings identity_provider id (s : Store) st :
  find_identity id identity_provider s = None →
  completed (create_session clk settings identity_provider id) (connect s st)
  = mkStore
      (table_principals s
         ++ [orm.Principal.mk (principal_seq s) (uuid4_source s) user])
      (table_identities s
         ++ [orm.Identity.mk id identity_provider (principal_seq s)])
      (table_sessions s
         ++ [orm.Session.mk (session_seq s) (N.succ (uuid4_source s))
               (principal_seq s) (now clk + session_max_age settings)
               false 0 None])
      (S (principal_seq s)) (S (session_seq s))
      (N.succ (N.succ (uuid4_source s))).
Proof.
  intros Hnone. unfold completed, create_session. simpl.
  rewrite Hnone. simpl. by rewrite exec_lift.
Qed.

Lemma create_session_known clk settings identity_provider id (s : Store) st i p :
  find_identity id identity_provider s = Some i →
  principal_by_id (orm.Identity.principal_id i) s = Some p →
  completed (create_session clk settings identity_provider id) (connect s st)
  = mkStore (table_principals s) (table_identities s)
      (table_sessions s
         ++ [orm.Session.mk (session_seq s) (uuid4_source s)
               (orm.Principal.id p) (now clk + session_max_age settings)
               false 0 None])
      (principal_seq s) (S (session_seq s)) (N.succ (uuid4_source s)).
Proof.
  intros Hi Hp. unfold completed, create_session. simpl.
  rewrite Hi. simpl. rewrite Hp. simpl. by rewrite exec_lift.
Qed.

(** C6: two calls of [create_session] for the same pair append two session
    rows with different uuids, each with
    [expiration_time = now + session_max_age], [revoked = false] and
    [refresh_count = 0].  After the first call the store holds an identity
    row for the pair and a principal row it links to, and both sessions
    belong to that principal: on a first login these are one new principal of
    type [user] and one new identity, appended by the first call; otherwise
    the first call leaves both tables as they were.  The second call leaves
    the principal and identity tables as the first call left them. *)
Theorem create_session_twice clk1 clk2 settings identity_provider id
    (s : Store) st1 st2 :
  linked s →
  let s1 := completed (create_session clk1 settings identity_provider id)
              (connect s st1) in
  let s2 := completed (create_session clk2 settings identity_provider id)
              (connect s1 st2) in
  ∃ session1 session2 i p,
    table_sessions s1 = (table_sessions s ++ [session1])%list
    ∧ table_sessions s2 = (table_sessions s ++ [session1; session2])%list
    ∧ orm.Session.uuid session1 ≠ orm.Session.uuid session2
    ∧ orm.Session.expiration_time session1
      = (now clk1 + session_max_age settings)%Z
    ∧ orm.Session.expiration_time session2
      = (now clk2 + session_max_age settings)%Z
    ∧ orm.Session.revoked session1 = false
    ∧ orm.Session.revoked session2 = false
    ∧ orm.Session.refresh_count session1 = 0%Z
    ∧ orm.Session.refresh_count session2 = 0%Z
    ∧ orm.Session.principal_id session1 = orm.Session.principal_id session2
    ∧ find_identity id identity_provider s1 = Some i
    ∧ orm.Identity.principal_id i = orm.Session.principal_id session1
    ∧ table_principals s2 = table_principals s1
    ∧ table_identities s2 = table_identities s1
    ∧ orm.Identity.id i = id
    ∧ orm.Identity.provider i = identity_provider
    ∧ p ∈ table_principals s1
    ∧ orm.Principal.id p = orm.Identity.principal_id i
    ∧ (find_identity id identity_provider s = None →
       p = orm.Principal.mk (principal_seq s) (uuid4_source s) user
       ∧ i = orm.Identity.mk id identity_provider (principal_seq s)
       ∧ table_principals s1 = (table_principals s ++ [p])%list
       ∧ table_identities s1 = (table_identities s ++ [i])%list)
    ∧ (find_identity id identity_provider s ≠ None →
       find_identity id identity_provider s = Some i
       ∧ principal_by_id (orm.Identity.principal_id i) s = Some p
       ∧ table_principals s1 = table_principals s
       ∧ table_identities s1 = table_identities s).
Proof.
  intros Hlinked s1 s2.
  destruct (find_identity id identity_provider s) as [i|] eqn:Hi.
  - assert (is_Some (principal_by_id (orm.Identity.principal_id i) s))
      as [p Hp].
    { unfold linked in Hlinked. rewrite Forall_forall in Hlinked.
      apply Hlinked. apply list_elem_of_In.
      unfold find_identity in Hi. by apply List.find_some in Hi as [? _]. }
    assert (Hs1 := create_session_known clk1 settings _ _ s st1 i p Hi Hp).
    fold s1 in Hs1.
    assert (Hs2 : s2 = _) by
      (apply (create_session_known clk2 settings _ _ s1 st2 i p);
       rewrite Hs1; assumption).
    pose proof Hp as Hp2. unfold principal_by_id in Hp2.
    apply List.find_some in Hp2 as [Hpin Hpid].
    apply bool_decide_eq_true in Hpid.
    pose proof Hi as Hi2. unfold find_identity in Hi2.
    apply List.find_some in Hi2 as [_ Hikey].
    apply andb_true_iff in Hikey as [Hiid Hiprov].
    apply bool_decide_eq_true in Hiid. apply bool_decide_eq_true in Hiprov.
    rewrite Hs2, Hs1. simpl.
    eexists _, _, i, p. rewrite <- app_assoc. simpl.
    repeat split; try done.
    + simpl. lia.
    + by apply list_elem_of_In.
  - assert (Hs1 := create_session_new clk1 settings _ _ s st1 Hi).
    fold s1 in Hs1.
    set (i := orm.Identity.mk id identity_provider (principal_seq s)).
    assert (Hi1 : find_identity id identity_provider s1 = Some i).
    { rewrite Hs1. unfold find_identity. simpl.
      rewrite find_snoc_none by exact Hi. simpl.
      by rewrite !bool_decide_eq_true_2. }
    destruct (find_snoc_hit
                (λ r, bool_decide (orm.Principal.id r = principal_seq s))
                (table_principals s)
                (orm.Principal.mk (principal_seq s) (uuid4_source s) user))
      as (p & Hp & Hpid); [by apply bool_decide_eq_true_2|].
    apply bool_decide_eq_true in Hpid.
    assert (Hs2 : s2 = _) by
      (apply (create_session_known clk2 settings _ _ s1 st2 i p);
       [exact Hi1 | rewrite Hs1; exact Hp]).
    rewrite Hs1 in Hi1.
    rewrite Hs2, Hs1. simpl.
    eexists _, _, i,
      (orm.Principal.mk (principal_seq s) (uuid4_source s) user).
    rewrite <- app_assoc. simpl.
    repeat split; try done.
    + simpl. lia.
    + apply elem_of_app. right. by apply list_elem_of_singleton.
Qed.
End RepeatedLogin.

Lemma create_session_twice_witness :
  ∃ session1 session2,
    table_sessions
      (completed
         (create_session (H:=demo) (mkClock 30 40) demo_settings "pam" "alice")
         (connect
            (completed
               (create_session (H:=demo) (mkClock 10 20) demo_settings
                  "pam" "alice")
               (connect empty_store fresh_state))
            fresh_state))
      = ([] ++ [session1; session2])%list
    ∧ orm.Session.uuid session1 ≠ orm.Session.uuid session2
    ∧ orm.Session.principal_id session1 = 1%nat
    ∧ orm.Session.principal_id session2 = 1%nat
    ∧ table_principals
        (completed
           (create_session (H:=demo) (mkClock 30 40) demo_settings "pam" "alice")
           (connect
              (completed
                 (create_session (H:=demo) (mkClock 10 20) demo_settings
                    "pam" "alice")
                 (connect empty_store fresh_state))
              fresh_state))
      = ([] ++ [orm.Principal.mk 1 0 user])%list
    ∧ table_identities
        (completed
           (create_session (H:=demo) (mkClock 30 40) demo_settings "pam" "alice")
           (connect
              (completed
                 (create_session (H:=demo) (mkClock 10 20) demo_settings
                    "pam" "alice")
                 (connect empty_store fresh_state))
              fresh_state))
      = ([] ++ [orm.Identity.mk "alice" "pam" 1])%list.
Proof.
  destruct (create_session_twice (H:=demo) (mkClock 10 20) (mkClock 30 40)
              demo_settings "pam" "alice" empty_store fresh_state fresh_state)
    as (session1 & session2 & i & p & _ & H2 & Hne & _ & _ & _ & _ & _ & _
        & Hsame & _ & Hlink & Hps & Hids & _ & _ & _ & _ & Hnew & _).
  - constructor.
  - destruct (Hnew eq_refl) as (-> & -> & Hp1 & Hi1).
    exists session1, session2. simpl in Hlink.
    rewrite Hps, Hids, Hp1, Hi1, <- Hsame, <- Hlink.
    repeat split; assumption || reflexivity.
Defined.

(** ** Tokens of the wrong kind, stale tokens, and the round trip *)

Section TokenUse.
Context `{Externals}.

Lemma PrincipalType_round_trip (t : PrincipalType) :
  PrincipalType_of_value (PrincipalType_value t) = Some t.
Proof. by destruct t. Qed.

Lemma identities_round_trip (l : list Identity) :
  map (λ i, mkIdentity (fst i) (snd i)) (map (λ i, (id i, provider i)) l) = l.
Proof.
  induction l as [|[i prov] l IH]; simpl; [done|]. by rewrite IH.
Qed.

Lemma principal_of_access_claims clk (p : Principal) delta :
  uuid_of_hex (uuid_hex (uuid p)) = Some (uuid p) →
  principal_of_payload (access_claims clk p delta) = Return p.
Proof.
  intros Hu. unfold principal_of_payload, access_claims. simpl.
  unfold UUID_from_hex. rewrite Hu. simpl.
  rewrite PrincipalType_round_trip, identities_round_trip. by destruct p.
Qed.

(** X1: an access token made by [create_access_token] from the data of a
    principal, once it decodes to the claims it was made from and the uuid
    survives its hex form, resolves to that same principal: uuid, type and
    identities, with no change to [request.state]. *)
Theorem access_token_round_trip clk clk' request state bearer
    has_single_user_api_key settings authenticators (p : Principal) k delta :
  access_token_from_either_location request bearer
    = Some (create_access_token clk (token_data p) k delta) →
  bool_decide (authenticators = []) && has_single_user_api_key = false →
  decode_token (utcnow clk') (create_access_token clk (token_data p) k delta)
    (secret_keys settings) = Return (access_claims clk p delta) →
  uuid_of_hex (uuid_hex (uuid p)) = Some (uuid p) →
  get_current_principal clk' request state bearer has_single_user_api_key
    settings authenticators = (Return (Model p), state).
Proof.
  intros Htoken Hgate Hdecode Hu. unfold get_current_principal.
  rewrite Hgate, Htoken, Hdecode.
  by rewrite (principal_of_access_claims _ _ _ Hu).
Qed.

(** X2: with an authenticator configured, [get_current_principal] never
    answers Admin and its answer does not depend on the single-user API
    key. *)
Theorem admin_only_without_authenticators clk request state bearer
    has_single_user_api_key settings authenticators :
  authenticators ≠ [] →
  fst (get_current_principal clk request state bearer has_single_user_api_key
         settings authenticators) ≠ Return (Special admin)
  ∧ get_current_principal clk request state bearer has_single_user_api_key
      settings authenticators
    = get_current_principal clk request state bearer false settings
        authenticators.
Proof.
  intros Hauth. unfold get_current_principal.
  rewrite (bool_decide_eq_false_2 _ Hauth). simpl. split; [|done].
  destruct (access_token_from_either_location request bearer) as [token|].
  - destruct (decode_token _ _ _) as [payload|e].
    + by destruct (principal_of_payload payload).
    + by destruct e.
  - by destruct (allow_anonymous_access settings).
Qed.

(** X3: when lines 128-133 do not answer Admin, a refresh token presented
    as access token is not refused with a 401: its payload has no [sub] and
    [payload["sub"]] raises [KeyError]. *)
Theorem refresh_token_is_no_access_token clk clk' request state bearer
    has_single_user_api_key settings authenticators token session_id delta :
  access_token_from_either_location request bearer = Some token →
  bool_decide (authenticators = []) && has_single_user_api_key = false →
  decode_token (utcnow clk') token (secret_keys settings)
    = Return (refresh_claims clk session_id delta) →
  get_current_principal clk' request state bearer has_single_user_api_key
    settings authenticators = (Raise (KeyError "sub"), state).
Proof.
  intros Htoken Hgate Hdecode. unfold get_current_principal.
  by rewrite Hgate, Htoken, Hdecode.
Qed.

(** X4: an access token presented to [slide_session] is not refused with
    a 401: its payload has no [sid], [payload["sid"]] raises [KeyError], and
    the store is not queried. *)
Theorem access_token_is_no_refresh_token clk clk' token settings
    (p : Principal) delta (w : World) :
  decode_token (utcnow clk') token (secret_keys settings)
    = Return (access_claims clk p delta) →
  exec (slide_session clk' token settings) w = (Raise (KeyError "sid"), w).
Proof.
  intros Hdecode. unfold slide_session. by rewrite Hdecode.
Qed.

(** X5: [slide_session] answers an expired refresh token with the 401
    "Session has expired. Please re-authenticate." it also gives for a
    revoked session, and a token that every key rejects with 401 "Could not
    validate credentials"; in both cases the database session is left as it
    was. *)
Theorem slide_session_undecodable clk refresh_token settings (w : World) :
  (decode_token (utcnow clk) refresh_token (secret_keys settings)
     = Raise ExpiredSignatureError →
   exec (slide_session clk refresh_token settings) w
     = (Raise (HTTPException 401
                 "Session has expired. Please re-authenticate." None), w))
  ∧ (Forall (rejects (utcnow clk) refresh_token) (secret_keys settings) →
     exec (slide_session clk refresh_token settings) w
       = (Raise (HTTPException 401 "Could not validate credentials"
                   (Some [("WWW-Authenticate", "Bearer")])), w)).
Proof.
  unfold slide_session. split.
  - by intros ->.
  - intros Hall. apply decode_token_exhausted in Hall. by rewrite Hall.
Qed.
End TokenUse.

(** ** More on [create_session] *)

Section LoginFacts.
Context `{Externals}.

Lemma find_app_is_Some {A} (f : A → bool) (l l' : list A) :
  is_Some (List.find f l) → is_Some (List.find f (l ++ l')).
Proof.
  induction l as [|x l IH]; simpl; [by intros [? ?]|].
  destruct (f x); [done|auto].
Qed.

Lemma linked_more_principals (s s' : Store) l :
  linked s →
  table_principals s' = (table_principals s ++ l)%list →
  table_identities s' = table_identities s →
  linked s'.
Proof.
  unfold linked, principal_by_id. intros Hl -> ->.
  eapply Forall_impl; [exact Hl|]. intros i Hi. by apply find_app_is_Some.
Qed.

Lemma linked_first_login (s s' : Store) i prov u ty :
  linked s →
  table_principals s'
    = (table_principals s ++ [orm.Principal.mk (principal_seq s) u ty])%list →
  table_identities s'
    = (table_identities s ++ [orm.Identity.mk i prov (principal_seq s)])%list →
  linked s'.
Proof.
  unfold linked, principal_by_id. intros Hl -> ->.
  apply Forall_app. split.
  - eapply Forall_impl; [exact Hl|]. intros j Hj. by apply find_app_is_Some.
  - repeat constructor. simpl.
    destruct (find_snoc_hit
                (λ r, bool_decide (orm.Principal.id r = principal_seq s))
                (table_principals s)
                (orm.Principal.mk (principal_seq s) u ty)) as (y & -> & _);
      [by apply bool_decide_eq_true_2|done].
Qed.

Lemma find_identity_none_fresh i prov (s : Store) :
  find_identity i prov s = None →
  (prov, i) ∉ map (λ r, (orm.Identity.provider r, orm.Identity.id r))
                  (table_identities s).
Proof.
  unfold find_identity. intros Hnone Hin.
  apply list_elem_of_In, List.in_map_iff in Hin as (r & Hr & Hin).
  apply (List.find_none _ _ Hnone) in Hin. simpl in Hin.
  injection Hr as Hprov Hi.
  by rewrite !bool_decide_eq_true_2 in Hin.
Qed.

Lemma unique_new_identity i prov pk (s : Store) ps ss m1 m2 u :
  unique_identities s →
  find_identity i prov s = None →
  unique_identities
    (mkStore ps (table_identities s ++ [orm.Identity.mk i prov pk]) ss m1 m2 u).
Proof.
  unfold unique_identities. simpl. intros Hu Hnone.
  rewrite List.map_app. apply NoDup_app. split; [done|]. split.
  - intros key Hkey Hin. simpl in Hin. apply list_elem_of_singleton in Hin as ->.
    by apply find_identity_none_fresh in Hnone.
  - simpl. apply NoDup_singleton.
Qed.

(** X8: wherever a [create_session] call is cancelled, and when it runs to
    its end, the durable store still has every identity row pointing at a
    principal row and no two identity rows with the same provider and id,
    provided it had before. *)
Theorem create_session_keeps_invariants clk settings identity_provider id
    (s : Store) st n :
  linked s →
  unique_identities s →
  linked (interrupted_after n
            (create_session clk settings identity_provider id) (connect s st))
  ∧ unique_identities
      (interrupted_after n
         (create_session clk settings identity_provider id) (connect s st)).
Proof.
  intros Hl Hu. unfold interrupted_after, create_session.
  destruct (find_identity id identity_provider s) as [i|] eqn:Hid.
  - destruct (principal_by_id (orm.Identity.principal_id i) s) as [p|] eqn:Hp;
      destruct n as [|[|[|[|[|[|n]]]]]];
      simpl; rewrite ?Hid; simpl; rewrite ?Hp; simpl;
      rewrite ?exec_upto_lift; simpl; by split.
  - pose proof (unique_new_identity id identity_provider (principal_seq s) s)
      as Hnew.
    destruct n as [|[|[|[|[|[|[|[|[|[|n]]]]]]]]]];
      simpl; rewrite ?Hid; simpl; rewrite ?exec_upto_lift; simpl;
      (split;
       [ first [ exact Hl
               | by apply (linked_more_principals s _
                             [orm.Principal.mk (principal_seq s)
                                (uuid4_source s) user])
               | by apply (linked_first_login s _ id identity_provider
                             (uuid4_source s) user) ]
       | first [ exact Hu | by apply Hnew ] ]).
Qed.

(** X9: [create_session] only appends: wherever it is cancelled, the rows
    that were stored are still there, unchanged and in place, with at most
    one new principal, at most one new session, and a new identity only
    together with a new principal. *)
Theorem create_session_appends clk settings identity_provider id
    (s : Store) st n :
  ∃ ps ids ss,
    table_principals
      (interrupted_after n (create_session clk settings identity_provider id)
         (connect s st)) = (table_principals s ++ ps)%list
    ∧ table_identities
        (interrupted_after n (create_session clk settings identity_provider id)
           (connect s st)) = (table_identities s ++ ids)%list
    ∧ table_sessions
        (interrupted_after n (create_session clk settings identity_provider id)
           (connect s st)) = (table_sessions s ++ ss)%list
    ∧ (length ids ≤ length ps ≤ 1)%nat ∧ (length ss ≤ 1)%nat.
Proof.
  unfold interrupted_after, create_session.
  destruct (find_identity id identity_provider s) as [i|] eqn:Hid.
  - exists [], [].
    destruct (principal_by_id (orm.Identity.principal_id i) s) as [p|] eqn:Hp;
      destruct n as [|[|[|[|[|[|n]]]]]];
      simpl; rewrite ?Hid; simpl; rewrite ?Hp; simpl;
      rewrite ?exec_upto_lift; simpl; rewrite ?app_nil_r;
      first [ by exists []; rewrite app_nil_r; simpl; repeat split; lia
            | by eexists [_]; simpl; repeat split; lia ].
  - destruct n as [|[|[|[|[|[|[|[|[|[|n]]]]]]]]]];
      simpl; rewrite ?Hid; simpl; rewrite ?exec_upto_lift; simpl.
    all: first
      [ by exists [], [], []; rewrite !app_nil_r; simpl; repeat split; lia
      | by eexists [_], [], []; rewrite !app_nil_r; simpl; repeat split; lia
      | by eexists [_], [_], []; rewrite !app_nil_r; simpl; repeat split; lia
      | by eexists [_], [_], [_]; simpl; repeat split; lia
      ].
Qed.

Lemma token_bundle_issued clk settings k keys (p : Principal) sid :
  secret_keys settings = k :: keys →
  token_bundle clk settings p sid = Return (issued_bundle clk settings k p sid).
Proof.
  intros Hk. unfold token_bundle, first_secret_key. by rewrite Hk.
Qed.

Lemma token_bundle_no_key clk settings (p : Principal) sid :
  secret_keys settings = [] →
  token_bundle clk settings p sid = Raise IndexError.
Proof.
  intros Hk. unfold token_bundle, first_secret_key. by rewrite Hk.
Qed.

(** The run of a first login. *)
Lemma create_session_exec_new clk settings identity_provider id (s : Store) st :
  find_identity id identity_provider s = None →
  let p := orm.Principal.mk (principal_seq s) (uuid4_source s) user in
  let session :=
    orm.Session.mk (session_seq s) (N.succ (uuid4_source s)) (principal_seq s)
      (now clk + session_max_age settings) false 0 None in
  let s' :=
    mkStore (table_principals s ++ [p])
      (table_identities s
         ++ [orm.Identity.mk id identity_provider (principal_seq s)])
      (table_sessions s ++ [session])
      (S (principal_seq s)) (S (session_seq s))
      (N.succ (N.succ (uuid4_source s))) in
  exec (create_session clk settings identity_provider id) (connect s st)
  = (token_bundle clk settings (principal_model p s')
       (uuid_hex (orm.Session.uuid session)),
     mkWorld s' [] (Some p) (Some session) st).
Proof.
  intros Hnone p session s'. unfold create_session. simpl.
  rewrite Hnone. simpl. by rewrite exec_lift.
Qed.

(** The run of a later login. *)
Lemma create_session_exec_known clk settings identity_provider id (s : Store)
    st i p :
  find_identity id identity_provider s = Some i →
  principal_by_id (orm.Identity.principal_id i) s = Some p →
  let session :=
    orm.Session.mk (session_seq s) (uuid4_source s) (orm.Principal.id p)
      (now clk + session_max_age settings) false 0 None in
  let s' :=
    mkStore (table_principals s) (table_identities s)
      (table_sessions s ++ [session])
      (principal_seq s) (S (session_seq s)) (N.succ (uuid4_source s)) in
  exec (create_session clk settings identity_provider id) (connect s st)
  = (token_bundle clk settings (principal_model p s')
       (uuid_hex (orm.Session.uuid session)),
     mkWorld s' [] None (Some session) st).
Proof.
  intros Hi Hp session s'. unfold create_session. simpl.
  rewrite Hi. simpl. rewrite Hp. simpl. by rewrite exec_lift.
Qed.

Lemma linked_principal (s : Store) i prov row :
  linked s → find_identity i prov s = Some row →
  is_Some (principal_by_id (orm.Identity.principal_id row) s).
Proof.
  unfold linked. rewrite Forall_forall. intros Hl Hrow.
  apply Hl, list_elem_of_In.
  unfold find_identity in Hrow. by apply List.find_some in Hrow as [? _].
Qed.

(** X6: on a store whose identities all point at principals, and with at
    least one secret key, [create_session] returns a bundle signed with the
    first key: the refresh token names the session row the call appended
    last, the access token carries the identities the store links to the
    session's principal, and the pair [(provider, id)] is linked to that
    principal. *)
Theorem create_session_issues clk settings identity_provider id (s : Store) st
    k keys :
  linked s →
  secret_keys settings = k :: keys →
  ∃ p session i,
    fst (exec (create_session clk settings identity_provider id) (connect s st))
      = Return (issued_bundle clk settings k
                  (principal_model p
                     (completed (create_session clk settings identity_provider id)
                        (connect s st)))
                  (uuid_hex (orm.Session.uuid session)))
    ∧ last (table_sessions
              (completed (create_session clk settings identity_provider id)
                 (connect s st))) = Some session
    ∧ orm.Session.principal_id session = orm.Principal.id p
    ∧ p ∈ table_principals
            (completed (create_session clk settings identity_provider id)
               (connect s st))
    ∧ find_identity id identity_provider
        (completed (create_session clk settings identity_provider id)
           (connect s st)) = Some i
    ∧ orm.Identity.principal_id i = orm.Principal.id p.
Proof.
  intros Hl Hk. unfold completed.
  destruct (find_identity id identity_provider s) as [i|] eqn:Hi.
  - destruct (linked_principal s _ _ _ Hl Hi) as [p Hp].
    rewrite (create_session_exec_known _ _ _ _ _ _ _ _ Hi Hp). simpl.
    exists p, (orm.Session.mk (session_seq s) (uuid4_source s)
                 (orm.Principal.id p) (now clk + session_max_age settings)
                 false 0 None), i.
    rewrite (token_bundle_issued _ _ _ _ _ _ Hk).
    split; [done|]. rewrite last_snoc. split; [done|]. split; [done|].
    unfold principal_by_id in Hp. apply List.find_some in Hp as [Hin Hp].
    apply bool_decide_eq_true in Hp.
    split; [by apply list_elem_of_In|]. split; [exact Hi|done].
  - rewrite (create_session_exec_new _ _ _ _ _ _ Hi). simpl.
    exists (orm.Principal.mk (principal_seq s) (uuid4_source s) user),
      (orm.Session.mk (session_seq s) (N.succ (uuid4_source s))
         (principal_seq s) (now clk + session_max_age settings) false 0 None),
      (orm.Identity.mk id identity_provider (principal_seq s)).
    rewrite (token_bundle_issued _ _ _ _ _ _ Hk).
    split; [done|]. rewrite last_snoc. split; [done|]. split; [done|].
    split; [apply elem_of_app; right; apply list_elem_of_singleton; done|].
    unfold find_identity. simpl. unfold find_identity in Hi.
    rewrite (find_snoc_none _ _ _ Hi). simpl.
    rewrite !bool_decide_eq_true_2 by done. done.
Qed.

(** X7: with an empty [secret_keys], [create_session] raises [IndexError]
    at [secret_keys[0]], after the new session row has been committed. *)
Theorem create_session_without_keys clk settings identity_provider id
    (s : Store) st :
  linked s →
  secret_keys settings = [] →
  fst (exec (create_session clk settings identity_provider id) (connect s st))
    = Raise IndexError
  ∧ ∃ session,
      table_sessions
        (completed (create_session clk settings identity_provider id)
           (connect s st)) = (table_sessions s ++ [session])%list
      ∧ orm.Session.revoked session = false
      ∧ orm.Session.expiration_time session
        = now clk + session_max_age settings.
Proof.
  intros Hl Hk. unfold completed.
  destruct (find_identity id identity_provider s) as [i|] eqn:Hi.
  - destruct (linked_principal s _ _ _ Hl Hi) as [p Hp].
    rewrite (create_session_exec_known _ _ _ _ _ _ _ _ Hi Hp). simpl.
    rewrite (token_bundle_no_key _ _ _ _ Hk). split; [done|]. by eexists.
  - rewrite (create_session_exec_new _ _ _ _ _ _ Hi). simpl.
    rewrite (token_bundle_no_key _ _ _ _ Hk). split; [done|]. by eexists.
Qed.
End LoginFacts.

(** ** More on sliding and revocation *)

Section SlideRevokeFacts.
Context `{Externals}.

(** The run of [slide_session] on an active session. *)
Lemma slide_session_exec clk refresh_token settings payload sid u row p
    (s : Store) st :
  decode_token (utcnow clk) refresh_token (secret_keys settings)
    = Return payload →
  c_sid payload = Some sid →
  uuid_of_hex sid = Some u →
  find_session u s = Some row →
  orm.Session.revoked row = false →
  (now clk ≤ orm.Session.expiration_time row)%Z →
  principal_by_id (orm.Session.principal_id row) s = Some p →
  exec (slide_session clk refresh_token settings) (connect s st)
  = (token_bundle clk settings (principal_model p s) sid,
     mkWorld s
       [Update_Session (orm.Session.id row) (set_time_last_refreshed (now clk));
        Update_Session (orm.Session.id row) (set_refresh_count_plus 1)]
       None None st).
Proof.
  intros Hdecode Hsid Hu Hrow Hrev Hexp Hp.
  unfold slide_session. rewrite Hdecode, Hsid. simpl.
  unfold UUID_from_hex. rewrite Hu. simpl. rewrite Hrow, Hrev.
  apply Z.ltb_ge in Hexp. rewrite Hexp. simpl. rewrite Hp. simpl.
  by rewrite exec_lift.
Qed.

(** X10: sliding an active session returns a bundle signed with the first
    secret key: the refresh token carries the session id of the token that
    was presented, the access token carries the identities the store links
    to the session's principal at that moment, and both expire their ages
    after the clock. *)
Theorem slide_session_issues clk refresh_token settings payload sid u row p
    k keys (s : Store) st :
  decode_token (utcnow clk) refresh_token (secret_keys settings)
    = Return payload →
  c_sid payload = Some sid →
  uuid_of_hex sid = Some u →
  find_session u s = Some row →
  orm.Session.revoked row = false →
  (now clk ≤ orm.Session.expiration_time row)%Z →
  principal_by_id (orm.Session.principal_id row) s = Some p →
  secret_keys settings = k :: keys →
  fst (exec (slide_session clk refresh_token settings) (connect s st))
    = Return
        (mkTokenBundle
           (jwt_encode (access_claims clk (principal_model p s)
                          (access_token_max_age settings)) k)
           (access_token_max_age settings)
           (jwt_encode (refresh_claims clk sid (refresh_token_max_age settings))
                       k)
           (refresh_token_max_age settings) "bearer").
Proof.
  intros Hdecode Hsid Hu Hrow Hrev Hexp Hp Hk.
  rewrite (slide_session_exec _ _ _ _ _ _ _ _ _ _
             Hdecode Hsid Hu Hrow Hrev Hexp Hp).
  simpl. by rewrite (token_bundle_issued _ _ _ _ _ _ Hk).
Qed.

Lemma update_twice_plus pk t1 t2 (rows : list orm.Session.t) :
  update_session pk (set_refresh_count_plus 1)
    (update_session pk (set_time_last_refreshed t2)
       (update_session pk (set_refresh_count_plus 1)
          (update_session pk (set_time_last_refreshed t1) rows)))
  = map (λ r, if bool_decide (orm.Session.id r = pk)
              then refreshed_times 2 t2 r else r) rows.
Proof.
  unfold update_session. rewrite !List.map_map. apply List.map_ext.
  intros r. destruct (bool_decide (orm.Session.id r = pk)) eqn:Hpk; simpl;
    rewrite ?Hpk; simpl; rewrite ?Hpk; simpl; rewrite ?Hpk; [|done].
  unfold refreshed_times. simpl. f_equal. lia.
Qed.

(** X11: two [slide_session] calls that read the same store, their units
    of work flushed one after the other, raise [refresh_count] by two: the
    second flush adds to what the first one wrote, since the assignment is
    the expression [refresh_count + 1] and not a value read earlier.
    [time_last_refreshed] is left at the clock of the call that is flushed
    second, whichever of the two clocks is later. *)
Theorem concurrent_slides_both_count clk1 clk2 token1 token2 settings
    payload1 payload2 sid1 sid2 u row p (s : Store) st1 st2 :
  decode_token (utcnow clk1) token1 (secret_keys settings) = Return payload1 →
  decode_token (utcnow clk2) token2 (secret_keys settings) = Return payload2 →
  c_sid payload1 = Some sid1 →
  c_sid payload2 = Some sid2 →
  uuid_of_hex sid1 = Some u →
  uuid_of_hex sid2 = Some u →
  find_session u s = Some row →
  orm.Session.revoked row = false →
  (now clk1 ≤ orm.Session.expiration_time row)%Z →
  (now clk2 ≤ orm.Session.expiration_time row)%Z →
  principal_by_id (orm.Session.principal_id row) s = Some p →
  table_sessions
    (flushed_onto
       (flushed_onto s
          (snd (exec (slide_session clk1 token1 settings) (connect s st1))))
       (snd (exec (slide_session clk2 token2 settings) (connect s st2))))
  = map (λ r, if bool_decide (orm.Session.id r = orm.Session.id row)
              then refreshed_times 2 (now clk2) r else r)
        (table_sessions s).
Proof.
  intros Hd1 Hd2 Hs1 Hs2 Hu1 Hu2 Hrow Hrev He1 He2 Hp.
  rewrite (slide_session_exec _ _ _ _ _ _ _ _ _ _ Hd1 Hs1 Hu1 Hrow Hrev He1 Hp).
  rewrite (slide_session_exec _ _ _ _ _ _ _ _ _ _ Hd2 Hs2 Hu2 Hrow Hrev He2 Hp).
  unfold flushed_onto. simpl. apply update_twice_plus.
Qed.

Lemma find_map_stable {A} (f : A → bool) (g : A → A) (l : list A) :
  (∀ x, f (g x) = f x) →
  List.find f (map g l) = option_map g (List.find f l).
Proof.
  intros Hfg. induction l as [|x l IH]; simpl; [done|].
  rewrite Hfg. by destruct (f x).
Qed.

Lemma find_session_updated u pk a (s : Store) ps ids n1 n2 src :
  find_session u
    (mkStore ps ids (update_session pk a (table_sessions s)) n1 n2 src)
  = option_map
      (λ r, if bool_decide (orm.Session.id r = pk) then assign a r else r)
      (find_session u s).
Proof.
  unfold find_session, update_session. simpl. apply find_map_stable.
  intros r. destruct (bool_decide (orm.Session.id r = pk)); [|done].
  by destruct a.
Qed.

(** The run of [revoke_session] on a stored session. *)
Lemma revoke_session_exec session_id u row (s : Store) st :
  uuid_of_hex session_id = Some u →
  find_session u s = Some row →
  exec (revoke_session session_id) (connect s st)
  = (Return (mkResponse 204 None),
     mkWorld
       (mkStore (table_principals s) (table_identities s)
          (update_session (orm.Session.id row) (set_revoked true)
             (table_sessions s))
          (principal_seq s) (session_seq s) (uuid4_source s))
       [] None None (mkRequestState (cookies_to_set st) (Some "auth"))).
Proof.
  intros Hu Hrow. unfold revoke_session. simpl.
  unfold UUID_from_hex. rewrite Hu. simpl. by rewrite Hrow.
Qed.

(** X12: once [revoke_session] has answered 204 for a stored session,
    [slide_session] refuses every refresh token that names it. *)
Theorem revoked_session_cannot_slide clk session_id refresh_token settings
    payload sid u row (s : Store) st st' :
  uuid_of_hex session_id = Some u →
  find_session u s = Some row →
  decode_token (utcnow clk) refresh_token (secret_keys settings)
    = Return payload →
  c_sid payload = Some sid →
  uuid_of_hex sid = Some u →
  fst (exec (revoke_session session_id) (connect s st))
    = Return (mkResponse 204 None)
  ∧ fst (exec (slide_session clk refresh_token settings)
           (connect (completed (revoke_session session_id) (connect s st)) st'))
    = Raise (HTTPException 401 "Session has expired. Please re-authenticate."
               None).
Proof.
  intros Hu Hrow Hdecode Hsid Hu'. unfold completed.
  rewrite (revoke_session_exec _ _ _ _ _ Hu Hrow). simpl. split; [done|].
  unfold slide_session. rewrite Hdecode, Hsid. simpl.
  unfold UUID_from_hex. rewrite Hu'. simpl.
  rewrite find_session_updated, Hrow. simpl.
  by rewrite bool_decide_eq_true_2.
Qed.

(** X13: revoking a stored session again answers 204 and leaves the store
    as the first revocation left it; revocation keeps the other tables and,
    on every session row, the uuid, [expiration_time] and [refresh_count],
    and no row that was revoked becomes active. *)
Theorem revoke_session_idempotent session_id u row (s : Store) st st' :
  uuid_of_hex session_id = Some u →
  find_session u s = Some row →
  let s1 := completed (revoke_session session_id) (connect s st) in
  exec (revoke_session session_id) (connect s1 st')
    = (Return (mkResponse 204 None),
       connect s1 (mkRequestState (cookies_to_set st') (Some "auth")))
  ∧ table_principals s1 = table_principals s
  ∧ table_identities s1 = table_identities s
  ∧ map orm.Session.uuid (table_sessions s1)
    = map orm.Session.uuid (table_sessions s)
  ∧ map orm.Session.expiration_time (table_sessions s1)
    = map orm.Session.expiration_time (table_sessions s)
  ∧ map orm.Session.refresh_count (table_sessions s1)
    = map orm.Session.refresh_count (table_sessions s)
  ∧ Forall2 (λ r r', orm.Session.revoked r = true → orm.Session.revoked r' = true)
      (table_sessions s) (table_sessions s1).
Proof.
  intros Hu Hrow s1.
  assert (Hs1 : s1 = mkStore (table_principals s) (table_identities s)
                  (update_session (orm.Session.id row) (set_revoked true)
                     (table_sessions s))
                  (principal_seq s) (session_seq s) (uuid4_source s)).
  { subst s1. unfold completed.
    by rewrite (revoke_session_exec _ _ _ _ _ Hu Hrow). }
  rewrite Hs1. clear Hs1 s1. split.
  - erewrite revoke_session_exec; [|exact Hu|].
    2:{ rewrite find_session_updated, Hrow. simpl.
        by rewrite bool_decide_eq_true_2. }
    simpl. rewrite revoke_idempotent. done.
  - simpl. unfold update_session. rewrite !List.map_map.
    repeat split; try done.
    all: try (apply List.map_ext; intros r;
      by destruct (bool_decide (orm.Session.id r = orm.Session.id row))).
    induction (table_sessions s) as [|r l IH]; simpl; constructor; [|done].
    by destruct (bool_decide (orm.Session.id r = orm.Session.id row)).
Qed.
End SlideRevokeFacts.

(** ** Login then refresh, the login routes, [whoami], API keys and logout *)

Section RouteFacts.
Context `{Externals}.

(** X14: the refresh token [create_session] returns can be slid as long as
    the clock has not passed [now + session_max_age]: when it decodes to the
    claims it was made from, the uuid drawn for the session was not in use
    and survives its hex form, [slide_session] succeeds on the store the
    login left, returns a refresh token for the same session id under the
    first key, and leaves the two bookkeeping assignments on that session
    pending. *)
Theorem fresh_session_slides clk clk' settings identity_provider id
    (s : Store) st st' k keys bundle session :
  linked s →
  secret_keys settings = k :: keys →
  fst (exec (create_session clk settings identity_provider id) (connect s st))
    = Return bundle →
  last (table_sessions
          (completed (create_session clk settings identity_provider id)
             (connect s st))) = Some session →
  find_session (orm.Session.uuid session) s = None →
  uuid_of_hex (uuid_hex (orm.Session.uuid session))
    = Some (orm.Session.uuid session) →
  decode_token (utcnow clk') (refresh_token bundle) (secret_keys settings)
    = Return (refresh_claims clk (uuid_hex (orm.Session.uuid session))
                (refresh_token_max_age settings)) →
  (now clk' ≤ now clk + session_max_age settings)%Z →
  ∃ bundle',
    fst (exec (slide_session clk' (refresh_token bundle) settings)
           (connect
              (completed (create_session clk settings identity_provider id)
                 (connect s st)) st'))
      = Return bundle'
    ∧ refresh_token bundle'
      = jwt_encode
          (refresh_claims clk' (uuid_hex (orm.Session.uuid session))
             (refresh_token_max_age settings)) k
    ∧ pending
        (snd (exec (slide_session clk' (refresh_token bundle) settings)
                (connect
                   (completed (create_session clk settings identity_provider id)
                      (connect s st)) st')))
      = [Update_Session (orm.Session.id session)
           (set_time_last_refreshed (now clk'));
         Update_Session (orm.Session.id session) (set_refresh_count_plus 1)].
Proof.
  intros Hl Hk Hbundle Hlast Hfresh Hu Hdecode Hnow. unfold completed in *.
  destruct (find_identity id identity_provider s) as [i|] eqn:Hi.
  - destruct (linked_principal s _ _ _ Hl Hi) as [p Hp].
    rewrite (create_session_exec_known _ _ _ _ _ _ _ _ Hi Hp) in *.
    simpl in *. rewrite last_snoc in Hlast. injection Hlast as <-.
    simpl in *.
    assert (Hp' : principal_by_id (orm.Principal.id p) s = Some p).
    { unfold principal_by_id in Hp. pose proof Hp as Hp2.
      apply List.find_some in Hp2 as [_ Hp2].
      apply bool_decide_eq_true in Hp2. unfold principal_by_id.
      by rewrite Hp2. }
    erewrite (slide_session_exec clk' _ settings _ _ _
                (orm.Session.mk (session_seq s) (uuid4_source s)
                   (orm.Principal.id p) (now clk + session_max_age settings)
                   false 0 None) p);
      [| exact Hdecode | reflexivity | exact Hu | | done | exact Hnow
       | exact Hp' ].
    + rewrite (token_bundle_issued _ _ _ _ _ _ Hk). eexists. simpl.
      split; [reflexivity|]. split; reflexivity.
    + unfold find_session in *. simpl. rewrite (find_snoc_none _ _ _ Hfresh).
      simpl. by rewrite bool_decide_eq_true_2.
  - rewrite (create_session_exec_new _ _ _ _ _ _ Hi) in *.
    simpl in *. rewrite last_snoc in Hlast. injection Hlast as <-.
    simpl in *.
    destruct (find_snoc_hit
                (λ r, bool_decide (orm.Principal.id r = principal_seq s))
                (table_principals s)
                (orm.Principal.mk (principal_seq s) (uuid4_source s) user))
      as (p & Hp & _); [by apply bool_decide_eq_true_2|].
    erewrite (slide_session_exec clk' _ settings _ _ _
                (orm.Session.mk (session_seq s) (N.succ (uuid4_source s))
                   (principal_seq s) (now clk + session_max_age settings)
                   false 0 None) p);
      [| exact Hdecode | reflexivity | exact Hu | | done | exact Hnow
       | exact Hp ].
    + rewrite (token_bundle_issued _ _ _ _ _ _ Hk). eexists. simpl.
      split; [reflexivity|]. split; reflexivity.
    + unfold find_session in *. simpl. rewrite (find_snoc_none _ _ _ Hfresh).
      simpl. by rewrite bool_decide_eq_true_2.
Qed.

(** X15: both login routes answer a falsy username ([None] or the empty
    string) with their 401 and touch neither the store nor the unit of work;
    any other username is handed to [create_session] under the provider the
    route was built for. *)
Theorem login_routes clk request settings provider
    (authenticate_request : Request → option string)
    (authenticate_form : string → string → option string)
    form_username form_password (w : World) :
  (not_username (authenticate_request request) = true →
   exec (auth_code authenticate_request provider clk request settings) w
     = (Raise (HTTPException 401 "Authentication failure" None), labelled w))
  ∧ (not_username (authenticate_form form_username form_password) = true →
     exec (handle_credentials authenticate_form provider clk form_username
             form_password settings) w
       = (Raise (HTTPException 401 "Incorrect username or password"
                   (Some [("WWW-Authenticate", "Bearer")])), labelled w))
  ∧ (∀ username,
       authenticate_request request = Some username → username ≠ "" →
       exec (auth_code authenticate_request provider clk request settings) w
         = exec (create_session clk settings provider username) (labelled w))
  ∧ (∀ username,
       authenticate_form form_username form_password = Some username →
       username ≠ "" →
       exec (handle_credentials authenticate_form provider clk form_username
               form_password settings) w
         = exec (create_session clk settings provider username) (labelled w)).
Proof.
  unfold auth_code, handle_credentials. repeat split.
  - intros Hf. simpl. by rewrite Hf.
  - intros Hf. simpl. by rewrite Hf.
  - intros username Hu Hne. simpl. rewrite Hu. simpl.
    by rewrite (bool_decide_eq_false_2 _ Hne).
  - intros username Hu Hne. simpl. rewrite Hu. simpl.
    by rewrite (bool_decide_eq_false_2 _ Hne).
Qed.

(** X16: for a [Principal] model, [whoami] answers from the store alone:
    the row with the model's uuid and the identities linked to it there,
    whatever type and identities the access token carried; when no row has
    that uuid, [Principal.from_orm(None)] raises [ValidationError].  The
    store is not changed. *)
Theorem whoami_reads_store (p : Principal) (w : World) :
  (∀ row, find_principal (uuid p) (store w) = Some row →
     exec (whoami (Some (Model p))) w
       = (Return (Some (principal_model row (store w))), labelled w))
  ∧ (find_principal (uuid p) (store w) = None →
     exec (whoami (Some (Model p))) w = (Raise ValidationError, labelled w)).
Proof.
  split.
  - intros row Hrow. simpl. by rewrite Hrow.
  - intros Hnone. simpl. by rewrite Hnone.
Qed.

(** X17: [check_single_user_api_key] returns [False] when no carrier is
    present; otherwise the first present carrier in the order query, header,
    cookie decides alone: for ASCII keys [True] on a match and 401 "Invalid
    API key" on a mismatch, whatever the later carriers hold; when that
    carrier or the configured key is not ASCII the call raises
    [TypeError]. *)
Theorem check_single_user_api_key_decides q h c settings :
  (first_presented [q; h; c] = None →
   check_single_user_api_key q h c settings = Return false)
  ∧ (∀ api_key,
       first_presented [q; h; c] = Some api_key →
       is_ascii api_key = true →
       is_ascii (single_user_api_key settings) = true →
       check_single_user_api_key q h c settings
         = if bool_decide (api_key = single_user_api_key settings)
           then Return true
           else Raise (HTTPException 401 "Invalid API key" None))
  ∧ (∀ api_key,
       first_presented [q; h; c] = Some api_key →
       is_ascii api_key = false
       ∨ is_ascii (single_user_api_key settings) = false →
       check_single_user_api_key q h c settings
         = Raise (TypeError
             "comparing strings with non-ASCII characters is not supported")).
Proof.
  unfold check_single_user_api_key. split; [|split].
  - apply check_api_keys_none.
  - intros api_key Hfirst Ha Hk.
    rewrite (check_api_keys_first _ _ _ Hfirst). unfold compare_digest.
    rewrite Ha, Hk. simpl.
    by destruct (bool_decide (api_key = single_user_api_key settings)).
  - intros api_key Hfirst Hnon.
    rewrite (check_api_keys_first _ _ _ Hfirst). unfold compare_digest.
    destruct Hnon as [-> | ->]; [done|]. by rewrite andb_false_r.
Qed.

(** X18: [logout] deletes the API-key and CSRF cookies only.  With an
    authenticator configured, a client that holds an access-token cookie,
    drops the deleted cookies and then presents no API key is resolved from
    that cookie alone: the answer is what [get_current_principal] makes of
    the cookie, whatever bearer token or API key the request carried before,
    and it is the answer the request got before logout whenever the API key
    check had let that request through. *)
Theorem logout_keeps_token_login clk request state state0 settings
    authenticators token :
  authenticators ≠ [] →
  cookies request !! ACCESS_TOKEN_COOKIE_NAME = Some token →
  first_presented
    (api_key_carriers (without_cookies (snd (logout state0 [])) request))
    = None →
  (∀ bearer has_single_user_api_key,
     current_principal clk (without_cookies (snd (logout state0 [])) request)
       state settings authenticators
     = get_current_principal clk request state bearer has_single_user_api_key
         settings authenticators)
  ∧ (∀ has_single_user_api_key,
       check_single_user_api_key (api_key_query request)
         (api_key_header request) (api_key_cookie request) settings
         = Return has_single_user_api_key →
       current_principal clk (without_cookies (snd (logout state0 [])) request)
         state settings authenticators
       = current_principal clk request state settings authenticators).
Proof.
  intros Hauth Hcookie Hnone.
  assert (Hafter : ∀ bearer has_key,
    current_principal clk (without_cookies (snd (logout state0 [])) request)
      state settings authenticators
    = get_current_principal clk request state bearer has_key settings
        authenticators).
  { intros bearer has_key.
    unfold current_principal at 1, check_single_user_api_key.
    change [api_key_query (without_cookies (snd (logout state0 [])) request);
            api_key_header (without_cookies (snd (logout state0 [])) request);
            api_key_cookie (without_cookies (snd (logout state0 [])) request)]
      with (api_key_carriers
              (without_cookies (snd (logout state0 [])) request)).
    rewrite (check_api_keys_none _ _ Hnone).
    unfold get_current_principal, access_token_from_either_location.
    rewrite (bool_decide_eq_false_2 _ Hauth). simpl.
    rewrite !lookup_delete_ne by discriminate. by rewrite Hcookie. }
  split; [exact Hafter|].
  intros has_key Hcheck. rewrite (Hafter (oauth2_scheme request) has_key).
  unfold current_principal. by rewrite Hcheck.
Qed.

(** X19: with no authenticator configured and the API key accepted, the
    answer is Admin whatever token the request carries; the API-key cookie is
    scheduled exactly when the request's cookie does not already hold the
    key, and a next request that carries the scheduled cookie schedules
    nothing. *)
Theorem admin_cookie_scheduled_once clk request state bearer settings :
  fst (get_current_principal clk request state bearer true settings [])
    = Return (Special admin)
  ∧ (cookies request !! API_KEY_COOKIE_NAME
       = Some (single_user_api_key settings) →
     snd (get_current_principal clk request state bearer true settings [])
       = state)
  ∧ (cookies request !! API_KEY_COOKIE_NAME
       ≠ Some (single_user_api_key settings) →
     cookies_to_set
       (snd (get_current_principal clk request state bearer true settings []))
       = (cookies_to_set state
            ++ [(API_KEY_COOKIE_NAME, single_user_api_key settings)])%list)
  ∧ get_current_principal clk
      (with_cookies
         (cookies_to_set
            (snd (get_current_principal clk request fresh_state bearer true
                    settings []))) request)
      state bearer true settings []
    = (Return (Special admin), state).
Proof.
  unfold get_current_principal. simpl. repeat split.
  - intros Hc. by rewrite (bool_decide_eq_true_2 _ Hc).
  - intros Hc. by rewrite (bool_decide_eq_false_2 _ Hc).
  - destruct (bool_decide (cookies request !! API_KEY_COOKIE_NAME
                           = Some (single_user_api_key settings))) eqn:Hc.
    + simpl. by rewrite Hc.
    + simpl. rewrite lookup_insert_eq. by rewrite bool_decide_eq_true_2.
Qed.
End RouteFacts.

(** ** The further statements at concrete inputs *)

Lemma access_token_round_trip_witness :
  get_current_principal (H:=bank) (mkClock 0 600) alice_cookie fresh_state
    None false demo_settings ["pam"]
  = (Return (Model alice), fresh_state).
Proof.
  refine (access_token_round_trip (H:=bank) (mkClock 0 500) (mkClock 0 600)
            alice_cookie fresh_state None false demo_settings ["pam"] alice
            "K1" 900 _ _ _ _).
  - by vm_compute.
  - reflexivity.
  - by vm_compute.
  - by vm_compute.
Defined.

Lemma admin_only_without_authenticators_witness :
  fst (get_current_principal (H:=demo) (mkClock 0 500)
         stale_cookie_with_api_key fresh_state None true demo_settings ["pam"])
    ≠ Return (Special admin)
  ∧ get_current_principal (H:=demo) (mkClock 0 500) stale_cookie_with_api_key
      fresh_state None true demo_settings ["pam"]
    = get_current_principal (H:=demo) (mkClock 0 500) stale_cookie_with_api_key
        fresh_state None false demo_settings ["pam"].
Proof.
  refine (admin_only_without_authenticators (H:=demo) (mkClock 0 500)
            stale_cookie_with_api_key fresh_state None true demo_settings
            ["pam"] _).
  discriminate.
Defined.

Lemma refresh_token_is_no_access_token_witness :
  get_current_principal (H:=bank) (mkClock 0 600) refresh_token_cookie
    fresh_state None false demo_settings ["pam"]
  = (Raise (KeyError "sub"), fresh_state).
Proof.
  refine (refresh_token_is_no_access_token (H:=bank) (mkClock 10 20)
            (mkClock 0 600) refresh_token_cookie fresh_state None false
            demo_settings ["pam"] first_session_token (demo_uuid_hex 1) 604800
            _ _ _).
  - by vm_compute.
  - reflexivity.
  - by vm_compute.
Defined.

Lemma access_token_is_no_refresh_token_witness :
  exec (slide_session (H:=bank) (mkClock 0 600) alice_token demo_settings)
       (connect (store_with active_session) fresh_state)
  = (Raise (KeyError "sid"), connect (store_with active_session) fresh_state).
Proof.
  refine (access_token_is_no_refresh_token (H:=bank) (mkClock 0 500)
            (mkClock 0 600) alice_token demo_settings alice 900
            (connect (store_with active_session) fresh_state) _).
  by vm_compute.
Defined.

Lemma create_session_issues_witness :
  ∃ p session i,
    fst (exec (create_session (H:=demo) (mkClock 10 20) demo_settings "pam"
                 "alice") (connect empty_store fresh_state))
      = Return (issued_bundle (H:=demo) (mkClock 10 20) demo_settings "K1"
                  (principal_model p
                     (completed
                        (create_session (H:=demo) (mkClock 10 20) demo_settings
                           "pam" "alice") (connect empty_store fresh_state)))
                  (demo_uuid_hex (orm.Session.uuid session)))
    ∧ last (table_sessions
              (completed
                 (create_session (H:=demo) (mkClock 10 20) demo_settings
                    "pam" "alice") (connect empty_store fresh_state)))
      = Some session
    ∧ orm.Session.principal_id session = orm.Principal.id p
    ∧ p ∈ table_principals
            (completed
               (create_session (H:=demo) (mkClock 10 20) demo_settings
                  "pam" "alice") (connect empty_store fresh_state))
    ∧ find_identity "alice" "pam"
        (completed
           (create_session (H:=demo) (mkClock 10 20) demo_settings
              "pam" "alice") (connect empty_store fresh_state)) = Some i
    ∧ orm.Identity.principal_id i = orm.Principal.id p.
Proof.
  refine (create_session_issues (H:=demo) (mkClock 10 20) demo_settings "pam"
            "alice" empty_store fresh_state "K1" ["K2"] _ _).
  - constructor.
  - reflexivity.
Defined.

Lemma create_session_without_keys_witness :
  fst (exec (create_session (H:=demo) (mkClock 10 20) keyless_settings "pam"
               "alice") (connect empty_store fresh_state))
    = Raise IndexError
  ∧ ∃ session,
      table_sessions
        (completed
           (create_session (H:=demo) (mkClock 10 20) keyless_settings "pam"
              "alice") (connect empty_store fresh_state))
        = ([] ++ [session])%list
      ∧ orm.Session.revoked session = false
      ∧ orm.Session.expiration_time session = 10 + 31536000.
Proof.
  refine (create_session_without_keys (H:=demo) (mkClock 10 20)
            keyless_settings "pam" "alice" empty_store fresh_state _ _).
  - constructor.
  - reflexivity.
Defined.

Lemma create_session_keeps_invariants_witness :
  linked (interrupted_after 6
            (create_session (H:=demo) (mkClock 10 20) demo_settings "pam" "bob")
            (connect store_of_alice fresh_state))
  ∧ unique_identities
      (interrupted_after 6
         (create_session (H:=demo) (mkClock 10 20) demo_settings "pam" "bob")
         (connect store_of_alice fresh_state)).
Proof.
  refine (create_session_keeps_invariants (H:=demo) (mkClock 10 20)
            demo_settings "pam" "bob" store_of_alice fresh_state 6 _ _).
  - repeat constructor. by eexists.
  - apply NoDup_singleton.
Defined.

Lemma slide_session_issues_witness :
  fst (exec (slide_session (H:=demo) (mkClock 60 500) "refresh-token"
               demo_settings)
         (connect (store_with active_session) fresh_state))
  = Return
      (mkTokenBundle
         (demo_encode
            (access_claims (H:=demo) (mkClock 60 500)
               (principal_model demo_principal (store_with active_session))
               900) "K1")
         900
         (demo_encode (refresh_claims (mkClock 60 500) demo_session_hex 604800)
            "K1")
         604800 "bearer").
Proof.
  refine (slide_session_issues (H:=demo) (mkClock 60 500) "refresh-token"
            demo_settings demo_refresh_claims demo_session_hex 42%N
            active_session demo_principal "K1" ["K2"]
            (store_with active_session) fresh_state _ _ _ _ _ _ _ _);
    first [ reflexivity | by vm_compute ].
Defined.

Lemma concurrent_slides_both_count_witness :
  table_sessions
    (flushed_onto
       (flushed_onto (store_with active_session)
          (snd (exec (slide_session (H:=demo) (mkClock 60 500) "refresh-token"
                        demo_settings)
                  (connect (store_with active_session) fresh_state))))
       (snd (exec (slide_session (H:=demo) (mkClock 70 500) "refresh-token"
                     demo_settings)
               (connect (store_with active_session) fresh_state))))
  = map (λ r, if bool_decide (orm.Session.id r = 1%nat)
              then refreshed_times 2 70 r else r)
        [active_session].
Proof.
  refine (concurrent_slides_both_count (H:=demo) (mkClock 60 500)
            (mkClock 70 500) "refresh-token" "refresh-token" demo_settings
            demo_refresh_claims demo_refresh_claims demo_session_hex
            demo_session_hex 42%N active_session demo_principal
            (store_with active_session) fresh_state fresh_state
            _ _ _ _ _ _ _ _ _ _ _);
    first [ reflexivity | by vm_compute ].
Defined.

Lemma revoked_session_cannot_slide_witness :
  fst (exec (revoke_session (H:=demo) demo_session_hex)
         (connect (store_with active_session) fresh_state))
    = Return (mkResponse 204 None)
  ∧ fst (exec (slide_session (H:=demo) (mkClock 60 500) "refresh-token"
                 demo_settings)
           (connect
              (completed (revoke_session (H:=demo) demo_session_hex)
                 (connect (store_with active_session) fresh_state))
              fresh_state))
    = Raise (HTTPException 401 "Session has expired. Please re-authenticate."
               None).
Proof.
  refine (revoked_session_cannot_slide (H:=demo) (mkClock 60 500)
            demo_session_hex "refresh-token" demo_settings demo_refresh_claims
            demo_session_hex 42%N active_session (store_with active_session)
            fresh_state fresh_state _ _ _ _ _);
    reflexivity.
Defined.

Lemma revoke_session_idempotent_witness :
  exec (revoke_session (H:=demo) demo_session_hex)
       (connect
          (completed (revoke_session (H:=demo) demo_session_hex)
             (connect (store_with active_session) fresh_state))
          fresh_state)
  = (Return (mkResponse 204 None),
     connect
       (completed (revoke_session (H:=demo) demo_session_hex)
          (connect (store_with active_session) fresh_state))
       (mkRequestState [] (Some "auth"))).
Proof.
  refine (proj1 (revoke_session_idempotent (H:=demo) demo_session_hex 42%N
                   active_session (store_with active_session) fresh_state
                   fresh_state _ _));
    reflexivity.
Defined.

Lemma fresh_session_slides_witness :
  ∃ bundle',
    fst (exec (slide_session (H:=bank) (mkClock 30 40) first_session_token
                 demo_settings)
           (connect
              (completed
                 (create_session (H:=bank) (mkClock 10 20) demo_settings
                    "pam" "alice") (connect empty_store fresh_state))
              fresh_state))
      = Return bundle'
    ∧ refresh_token bundle'
      = demo_encode (refresh_claims (mkClock 30 40) (demo_uuid_hex 1) 604800)
          "K1"
    ∧ pending
        (snd (exec (slide_session (H:=bank) (mkClock 30 40)
                      first_session_token demo_settings)
                (connect
                   (completed
                      (create_session (H:=bank) (mkClock 10 20) demo_settings
                         "pam" "alice") (connect empty_store fresh_state))
                   fresh_state)))
      = [Update_Session 1 (set_time_last_refreshed 30);
         Update_Session 1 (set_refresh_count_plus 1)].
Proof.
  refine (fresh_session_slides (H:=bank) (mkClock 10 20) (mkClock 30 40)
            demo_settings "pam" "alice" empty_store fresh_state fresh_state
            "K1" ["K2"]
            (issued_bundle (H:=bank) (mkClock 10 20) demo_settings "K1"
               (mkPrincipal 0 user [mkIdentity "alice" "pam"])
               (demo_uuid_hex 1))
            (orm.Session.mk 1 1 1 (10 + 31536000) false 0 None)
            _ _ _ _ _ _ _ _);
    first [ reflexivity | by vm_compute | constructor ].
Defined.

Lemma logout_keeps_token_login_witness :
  (∀ bearer has_single_user_api_key,
     current_principal (H:=bank) (mkClock 0 600)
       (without_cookies (snd (logout fresh_state [])) alice_cookie_wrong_key)
       fresh_state demo_settings ["pam"]
     = get_current_principal (H:=bank) (mkClock 0 600) alice_cookie_wrong_key
         fresh_state bearer has_single_user_api_key demo_settings ["pam"])
  ∧ (∀ has_single_user_api_key,
       check_single_user_api_key
         (api_key_query (Externals:=bank) alice_cookie_wrong_key)
         (api_key_header (Externals:=bank) alice_cookie_wrong_key)
         (api_key_cookie (Externals:=bank) alice_cookie_wrong_key)
         demo_settings
         = Return has_single_user_api_key →
       current_principal (H:=bank) (mkClock 0 600)
         (without_cookies (snd (logout fresh_state [])) alice_cookie_wrong_key)
         fresh_state demo_settings ["pam"]
       = current_principal (H:=bank) (mkClock 0 600) alice_cookie_wrong_key
           fresh_state demo_settings ["pam"]).
Proof.
  refine (logout_keeps_token_login (H:=bank) (mkClock 0 600)
            alice_cookie_wrong_key fresh_state fresh_state demo_settings
            ["pam"] alice_token _ _ _).
  - discriminate.
  - by vm_compute.
  - by vm_compute.
Defined.
